(** * ascn-aws-agent.py: a shallow embedding and its verified properties

    The script wires five "tool" functions (thin wrappers around one cloud
    provider call each) to a query harness that prints a language model's
    reply and then picks at most one tool by keyword matching.

    Layout of this development:
    - [PyStr]: the fragment of Python's [str] the script relies on
      ([in], [lower], [split], [repr]);
    - [PyVal]: the values provider responses are built from, with
      subscripting, iteration, truthiness and formatting;
    - the effect monad (state and exceptions), the outside world, the
      tools and the harness, each following the source line by line;
    - the notions the statements are written in (the rule table of the
      specification among them) and a concrete world to run the model in;
    - facts about strings, the tools and the harness, then the theorems,
      one per property. *)

From Stdlib Require Import Ascii String ZArith Lia Bool.
From Stdlib Require Import DecimalString.
From stdpp Require Import base strings list gmap.

Set Warnings "-register-all".

(** ** Python strings

    A [str] is a sequence of code points.  The model covers code points
    below 256, one [ascii] each; every operation below is CPython's
    behaviour on that range. *)

Module PyStr.

Definition code (c : ascii) : N := N_of_ascii c.

Definition between (lo hi n : N) : bool := (lo <=? n)%N && (n <=? hi)%N.

(** [str.isspace] on one code point: the ASCII blanks and separators,
    NEL (0x85) and the no-break space (0xA0). *)
Definition isspace (c : ascii) : bool :=
  let n := code c in
  between 9 13 n || between 28 32 n || (n =? 133)%N || (n =? 160)%N.

(** [str.isprintable] on one code point: not in categories C* and Z*,
    except the ASCII space. *)
Definition isprintable (c : ascii) : bool :=
  let n := code c in
  between 32 126 n || (between 161 255 n && negb (n =? 173)%N).

(** [str.lower] on one code point: A-Z and the Latin-1 capitals
    (0xC0-0xDE without the multiplication sign 0xD7) move up by 32. *)
Definition lower_char (c : ascii) : ascii :=
  let n := code c in
  if between 65 90 n || (between 192 222 n && negb (n =? 215)%N)
  then ascii_of_N (n + 32) else c.

Fixpoint lower (s : string) : string :=
  match s with
  | EmptyString => EmptyString
  | String c s' => String (lower_char c) (lower s')
  end.

(** [p in s]: [p] occurs in [s] as a contiguous substring. *)
Fixpoint contains (p s : string) : bool :=
  String.prefix p s ||
  match s with
  | EmptyString => false
  | String _ s' => contains p s'
  end.

(** [s.split()]: maximal runs of non-blank characters.  [cur] is the run
    being read. *)
Fixpoint split_from (cur s : string) : list string :=
  match s with
  | EmptyString =>
      match cur with EmptyString => [] | _ => [cur] end
  | String c s' =>
      if isspace c then
        match cur with
        | EmptyString => split_from EmptyString s'
        | _ => cur :: split_from EmptyString s'
        end
      else split_from (cur +:+ String c EmptyString) s'
  end.

Definition split (s : string) : list string := split_from EmptyString s.

(** [s * n] *)
Fixpoint repeat (s : string) (n : nat) : string :=
  match n with
  | O => EmptyString
  | S n' => s +:+ repeat s n'
  end.

(** *** [repr] of a [str] *)

Definition squote : ascii := "'"%char.
Definition dquote : ascii := "034"%char.
Definition backslash : ascii := "\"%char.

Fixpoint has_char (q : ascii) (s : string) : bool :=
  match s with
  | EmptyString => false
  | String c s' => Ascii.eqb c q || has_char q s'
  end.

(** The quote [repr] wraps the text in: a single quote, unless the text
    has single quotes and no double quote. *)
Definition repr_quote (s : string) : ascii :=
  if has_char squote s && negb (has_char dquote s) then dquote else squote.

Definition hexdigit (n : N) : ascii :=
  if (n <? 10)%N then ascii_of_N (48 + n) else ascii_of_N (87 + n).

Definition repr_char (quote c : ascii) : string :=
  if Ascii.eqb c quote || Ascii.eqb c backslash then
    String backslash (String c EmptyString)
  else if Ascii.eqb c "009"%char then "\t"
  else if Ascii.eqb c "010"%char then "\n"
  else if Ascii.eqb c "013"%char then "\r"
  else if isprintable c then String c EmptyString
  else
    String backslash
      (String "x"%char
         (String (hexdigit (code c / 16))
            (String (hexdigit (code c mod 16)) EmptyString))).

Fixpoint repr_body (quote : ascii) (s : string) : string :=
  match s with
  | EmptyString => EmptyString
  | String c s' => repr_char quote c +:+ repr_body quote s'
  end.

Definition repr (s : string) : string :=
  let q := repr_quote s in
  String q (repr_body q s +:+ String q EmptyString).

End PyStr.

(** ** Exceptions and outcomes

    [Exception] stands for an instance of Python's class [Exception]: the
    class name and the text [str(e)] yields.  A call either returns a value
    or raises.  The system-exiting exceptions ([KeyboardInterrupt],
    [SystemExit]), which derive from [BaseException] alone and ask the
    interpreter to stop rather than report how a call ended, are outside
    the model. *)

Record Exception := mkException { exc_class : string; exc_str : string }.

Inductive outcome (A : Type) : Type :=
| Return (a : A)
| Raise (e : Exception).
Arguments Return {A} a.
Arguments Raise {A} e.

Definition KeyError (key_repr : string) : Exception :=
  mkException "KeyError" key_repr.
Definition IndexError (msg : string) : Exception :=
  mkException "IndexError" msg.
Definition TypeError (msg : string) : Exception :=
  mkException "TypeError" msg.

(** ** Python values

    The values a parsed provider response is built from: [None], booleans,
    integers, strings, lists, and dictionaries with string keys (kept in
    insertion order). *)

Inductive pyval : Type :=
| PNone
| PBool (b : bool)
| PInt (n : Z)
| PStr (s : string)
| PList (l : list pyval)
| PDict (d : list (string * pyval)).

Module PyVal.

Definition type_name (v : pyval) : string :=
  match v with
  | PNone => "NoneType"
  | PBool _ => "bool"
  | PInt _ => "int"
  | PStr _ => "str"
  | PList _ => "list"
  | PDict _ => "dict"
  end.

Definition int_repr (n : Z) : string := NilZero.string_of_int (Z.to_int n).

(** [repr(v)] *)
Fixpoint repr (v : pyval) : string :=
  match v with
  | PNone => "None"
  | PBool true => "True"
  | PBool false => "False"
  | PInt n => int_repr n
  | PStr s => PyStr.repr s
  | PList l => "[" +:+ String.concat ", " (List.map repr l) +:+ "]"
  | PDict d =>
      "{" +:+
      String.concat ", "
        (List.map (fun kv => PyStr.repr (fst kv) +:+ ": " +:+ repr (snd kv)) d)
      +:+ "}"
  end.

(** [str(v)], which is also what an f-string field [{v}] expands to. *)
Definition str (v : pyval) : string :=
  match v with
  | PStr s => s
  | _ => repr v
  end.

(** Truth value, as tested by [if v:]. *)
Definition truthy (v : pyval) : bool :=
  match v with
  | PNone => false
  | PBool b => b
  | PInt n => negb (n =? 0)%Z
  | PStr s => negb (String.eqb s EmptyString)
  | PList l => match l with [] => false | _ => true end
  | PDict d => match d with [] => false | _ => true end
  end.

Fixpoint dict_get (key : string) (d : list (string * pyval)) : option pyval :=
  match d with
  | [] => None
  | (k, v) :: d' => if String.eqb k key then Some v else dict_get key d'
  end.

Definition not_subscriptable (v : pyval) : Exception :=
  TypeError ("'" +:+ type_name v +:+ "' object is not subscriptable").

Definition not_iterable (v : pyval) : Exception :=
  TypeError ("'" +:+ type_name v +:+ "' object is not iterable").

(** [v[key]] for a string key. *)
Definition getitem (v : pyval) (key : string) : outcome pyval :=
  match v with
  | PDict d =>
      match dict_get key d with
      | Some x => Return x
      | None => Raise (KeyError (PyStr.repr key))
      end
  | PList _ => Raise (TypeError "list indices must be integers or slices, not str")
  | PStr _ => Raise (TypeError "string indices must be integers, not 'str'")
  | _ => Raise (not_subscriptable v)
  end.

(** [v[0]] *)
Definition getitem0 (v : pyval) : outcome pyval :=
  match v with
  | PList l =>
      match l with
      | x :: _ => Return x
      | [] => Raise (IndexError "list index out of range")
      end
  | PStr s =>
      match s with
      | String c _ => Return (PStr (String c EmptyString))
      | EmptyString => Raise (IndexError "string index out of range")
      end
  | PDict _ => Raise (KeyError "0")
  | _ => Raise (not_subscriptable v)
  end.

Fixpoint chars (s : string) : list pyval :=
  match s with
  | EmptyString => []
  | String c s' => PStr (String c EmptyString) :: chars s'
  end.

(** The items [for x in v] runs through. *)
Definition iter (v : pyval) : outcome (list pyval) :=
  match v with
  | PList l => Return l
  | PDict d => Return (List.map (fun kv => PStr (fst kv)) d)
  | PStr s => Return (chars s)
  | _ => Raise (not_iterable v)
  end.

(** [[f(x) for x in xs]]: stops at the first item on which [f] raises. *)
Fixpoint comprehension (f : pyval -> outcome pyval) (xs : list pyval)
  : outcome (list pyval) :=
  match xs with
  | [] => Return []
  | x :: xs' =>
      match f x with
      | Raise e => Raise e
      | Return y =>
          match comprehension f xs' with
          | Raise e => Raise e
          | Return ys => Return (y :: ys)
          end
      end
  end.

End PyVal.

(** ** The program state and the outside world *)

(** A service handle, as [boto3.client] builds it.  [client_id] is the
    object's identity: two handles built by two calls differ in it. *)
Record Client := mkClient {
  client_service : string;
  client_key : option string;
  client_secret : option string;
  client_region : option string;
  client_id : nat
}.

(** What [subprocess.run(..., capture_output=True, text=True)] returns. *)
Record CompletedProcess := mkCompletedProcess {
  returncode : Z;
  stdout : string;
  stderr : string
}.

(** The five decorated functions. *)
Inductive Tool : Type :=
| AwsCliCommand
| ListRoute53HostedZones
| GetEc2InstanceSize
| GetUserPermissions
| ListS3Buckets.

(** What the program does to the outside world, in order. *)
Inductive Event : Type :=
| Boto3Client (service : string) (key secret region : option string)
| ClientCall (c : Client) (method : string) (kwargs : list (string * pyval))
| SubprocessRun (args : list string) (env : gmap string (option string))
| ChainInvoke (input : string)
| ToolInvoke (t : Tool) (input : option (string * string)).

(** The module-level names of the script. *)
Record Globals := mkGlobals {
  aws_access_key_id : option string;
  aws_secret_access_key : option string;
  region_name : option string;
  ec2 : Client;
  route53 : Client;
  iam : Client
}.

Record State := mkState {
  globals : Globals;
  environ : gmap string string;       (* os.environ *)
  next_id : nat;                      (* identities handed out so far *)
  sys_stdout : list string;           (* one entry per print call *)
  trace : list Event
}.

(** The collaborators the script calls and does not define: how each call
    ends is theirs to decide.  [boto3_client_error] says whether building a
    handle fails, [client_call] how a method call on a handle ends,
    [run_outcome] how [subprocess.run] ends, [chain_outcome] what the model
    chain answers (the text of its reply) and [dotenv] what the [.env] file
    holds.  The theorems hold for every world. *)
Record World := mkWorld {
  dotenv : gmap string string;
  boto3_client_error :
    string -> option string -> option string -> option string -> option Exception;
  client_call : Client -> string -> list (string * pyval) -> outcome pyval;
  run_outcome :
    list string -> gmap string (option string) -> outcome CompletedProcess;
  chain_outcome : string -> outcome string
}.

(** ** The effect monad: state threaded through, exceptions short-circuit *)

Global Instance outcome_ret : MRet outcome := fun A (a : A) => Return a.

Global Instance outcome_bind : MBind outcome :=
  fun A B (f : A -> outcome B) (o : outcome A) =>
    match o with
    | Return a => f a
    | Raise e => Raise e
    end.

Global Instance outcome_fmap : FMap outcome :=
  fun A B (f : A -> B) (o : outcome A) =>
    match o with
    | Return a => Return (f a)
    | Raise e => Raise e
    end.

Definition M (A : Type) : Type := State -> outcome A * State.

Global Instance M_ret : MRet M := fun A (a : A) st => (Return a, st).

Global Instance M_bind : MBind M := fun A B (f : A -> M B) (m : M A) st =>
  match m st with
  | (Return a, st') => f a st'
  | (Raise e, st') => (Raise e, st')
  end.

Definition lift {A} (o : outcome A) : M A := fun st => (o, st).

Definition raise {A} (e : Exception) : M A := lift (Raise e).

(** [try: body / except Exception as e: handler e] *)
Definition try_except {A} (body : M A) (handler : Exception -> M A) : M A :=
  fun st =>
    match body st with
    | (Return a, st') => (Return a, st')
    | (Raise e, st') => handler e st'
    end.

(** [for x in xs: body x] *)
Fixpoint for_each {A} (xs : list A) (body : A -> M unit) : M unit :=
  match xs with
  | [] => mret tt
  | x :: xs' => body x;; for_each xs' body
  end.

Definition global {A} (name : Globals -> A) : M A :=
  fun st => (Return (name (globals st)), st).

Definition os_environ_copy : M (gmap string (option string)) :=
  fun st => (Return (Some <$> environ st), st).

(** The state after some more events, or some more printed lines. *)
Definition add_events (evs : list Event) (st : State) : State :=
  mkState (globals st) (environ st) (next_id st) (sys_stdout st)
    (trace st ++ evs).

Definition add_lines (lines : list string) (st : State) : State :=
  mkState (globals st) (environ st) (next_id st) (sys_stdout st ++ lines)
    (trace st).

Definition emit (ev : Event) : M unit :=
  fun st => (Return tt, add_events [ev] st).

(** [print(line)]: standard output is kept as a log of the lines written. *)
Definition print (line : string) : M unit :=
  fun st => (Return tt, add_lines [line] st).

Definition new_id : M nat :=
  fun st =>
    (Return (next_id st),
     mkState (globals st) (environ st) (S (next_id st)) (sys_stdout st)
       (trace st)).

Section Program.

Context (w : World).

(** *** Calls into the collaborators *)

Definition boto3_client (service : string) (key secret region : option string)
  : M Client :=
  emit (Boto3Client service key secret region);;
  match boto3_client_error w service key secret region with
  | Some e => raise e
  | None => i ← new_id; mret (mkClient service key secret region i)
  end.

Definition call (c : Client) (method : string) (kwargs : list (string * pyval))
  : M pyval :=
  emit (ClientCall c method kwargs);;
  lift (client_call w c method kwargs).

Definition subprocess_run (args : list string) (env : gmap string (option string))
  : M CompletedProcess :=
  emit (SubprocessRun args env);;
  lift (run_outcome w args env).

Definition chain_invoke (input : string) : M string :=
  emit (ChainInvoke input);;
  lift (chain_outcome w input).

(** *** Lines 10-24: what importing the module does

    [load_dotenv] adds the entries of the [.env] file that the environment
    does not have yet; the three credentials are read once; the three
    handles get the identities 0, 1 and 2. *)
Definition import_module (os_environ : gmap string string) : outcome State :=
  let env := os_environ ∪ dotenv w in
  let key := env !! "AWS_ACCESS_KEY" in
  let secret := env !! "AWS_SECRET_KEY" in
  let region := env !! "REGION_NAME" in
  match boto3_client_error w "ec2" key secret region with
  | Some e => Raise e
  | None =>
  match boto3_client_error w "route53" key secret region with
  | Some e => Raise e
  | None =>
  match boto3_client_error w "iam" key secret region with
  | Some e => Raise e
  | None =>
      Return
        (mkState
           (mkGlobals key secret region
              (mkClient "ec2" key secret region 0)
              (mkClient "route53" key secret region 1)
              (mkClient "iam" key secret region 2))
           env 3 []
           [Boto3Client "ec2" key secret region;
            Boto3Client "route53" key secret region;
            Boto3Client "iam" key secret region])
  end end end.

(** *** Lines 26-91: the tools *)

Definition aws_cli_command (command : string) : M string :=
  try_except
    (env ← os_environ_copy;
     key ← global aws_access_key_id;
     let env := <["AWS_ACCESS_KEY_ID" := key]> env in
     secret ← global aws_secret_access_key;
     let env := <["AWS_SECRET_ACCESS_KEY" := secret]> env in
     region ← global region_name;
     let env := <["AWS_DEFAULT_REGION" := region]> env in
     result ← subprocess_run ("aws" :: PyStr.split command) env;
     if (returncode result =? 0)%Z then mret (stdout result)
     else mret ("Error: " +:+ stderr result))
    (fun e => mret ("Error executing AWS command: " +:+ exc_str e)).

Definition list_route53_hosted_zones : M string :=
  try_except
    (client ← global route53;
     response ← call client "list_hosted_zones" [];
     zones ← lift (PyVal.getitem response "HostedZones");
     zones ← lift (PyVal.iter zones);
     hosted_zones ←
       lift (PyVal.comprehension (fun zone => PyVal.getitem zone "Name") zones);
     mret ("Route 53 Hosted Zones: " +:+ PyVal.str (PList hosted_zones)))
    (fun e => mret ("Error listing Route 53 hosted zones: " +:+ exc_str e)).

(** The keyword arguments of [describe_instances], line 62:
    [Filters=[{'Name': 'private-ip-address', 'Values': [instance_ip]}]]. *)
Definition private_ip_filter (instance_ip : string) : list (string * pyval) :=
  [("Filters",
    PList [PDict [("Name", PStr "private-ip-address");
                  ("Values", PList [PStr instance_ip])]])].

Definition get_ec2_instance_size (instance_ip : string) : M string :=
  try_except
    (client ← global ec2;
     instances ← call client "describe_instances" (private_ip_filter instance_ip);
     reservations ← lift (PyVal.getitem instances "Reservations");
     if PyVal.truthy reservations then
       reservations ← lift (PyVal.getitem instances "Reservations");
       reservation ← lift (PyVal.getitem0 reservations);
       insts ← lift (PyVal.getitem reservation "Instances");
       inst ← lift (PyVal.getitem0 insts);
       instance_type ← lift (PyVal.getitem inst "InstanceType");
       mret ("EC2 instance " +:+ instance_ip +:+ " is of type: "
             +:+ PyVal.str instance_type)
     else
       mret ("No EC2 instance found with IP address: " +:+ instance_ip))
    (fun e => mret ("Error getting EC2 instance size: " +:+ exc_str e)).

Definition get_user_permissions (user_name : string) : M string :=
  try_except
    (client ← global iam;
     policies ←
       call client "list_attached_user_policies" [("UserName", PStr user_name)];
     attached ← lift (PyVal.getitem policies "AttachedPolicies");
     attached ← lift (PyVal.iter attached);
     policy_names ←
       lift (PyVal.comprehension
               (fun policy => PyVal.getitem policy "PolicyName") attached);
     mret ("IAM user '" +:+ user_name +:+ "' has these policies: "
           +:+ PyVal.str (PList policy_names)))
    (fun e => mret ("Error getting user permissions: " +:+ exc_str e)).

Definition list_s3_buckets : M string :=
  try_except
    (key ← global aws_access_key_id;
     secret ← global aws_secret_access_key;
     region ← global region_name;
     s3 ← boto3_client "s3" key secret region;
     response ← call s3 "list_buckets" [];
     buckets ← lift (PyVal.getitem response "Buckets");
     buckets ← lift (PyVal.iter buckets);
     bucket_names ←
       lift (PyVal.comprehension (fun bucket => PyVal.getitem bucket "Name") buckets);
     mret ("S3 Buckets: " +:+ PyVal.str (PList bucket_names)))
    (fun e => mret ("Error listing S3 buckets: " +:+ exc_str e)).

Definition tool_function (t : Tool) (arg : string) : M string :=
  match t with
  | AwsCliCommand => aws_cli_command arg
  | ListRoute53HostedZones => list_route53_hosted_zones
  | GetEc2InstanceSize => get_ec2_instance_size arg
  | GetUserPermissions => get_user_permissions arg
  | ListS3Buckets => list_s3_buckets
  end.

(** [t.invoke(input)] on a decorated function: the call is recorded and the
    function runs on the one keyword argument, if there is one. *)
Definition invoke (t : Tool) (input : option (string * string)) : M string :=
  emit (ToolInvoke t input);;
  tool_function t (match input with Some (_, v) => v | None => EmptyString end).

(** *** Lines 119-158: the harness *)

Definition test_queries : list string :=
  ["List all S3 buckets in my AWS account";
   "List all Route 53 hosted zones";
   "Get the size of EC2 instance with IP 10.0.1.112";
   "Get permissions for IAM user take-home-coding"].

Definition newline : ascii := "010"%char.

(** The [try] block of the loop body, lines 130-155. *)
Definition query_body (query : string) : M unit :=
  print (String newline (PyStr.repeat "=" 50));;
  print ("Query: " +:+ query);;
  print (PyStr.repeat "=" 50);;
  content ← chain_invoke query;
  print "Agent response:";;
  print content;;
  if PyStr.contains "s3" (PyStr.lower query)
     && PyStr.contains "bucket" (PyStr.lower query) then
    print (String newline "Executing S3 bucket listing...");;
    aws_result ← invoke ListS3Buckets None;
    print ("Result: " +:+ aws_result)
  else if PyStr.contains "route 53" (PyStr.lower query)
          || PyStr.contains "hosted zone" (PyStr.lower query) then
    print (String newline "Executing Route 53 hosted zones listing...");;
    aws_result ← invoke ListRoute53HostedZones None;
    print ("Result: " +:+ aws_result)
  else if PyStr.contains "ec2" (PyStr.lower query)
          && PyStr.contains "10.0.1.112" query then
    print (String newline "Getting EC2 instance size...");;
    aws_result ← invoke GetEc2InstanceSize (Some ("instance_ip", "10.0.1.112"));
    print ("Result: " +:+ aws_result)
  else if PyStr.contains "iam" (PyStr.lower query)
          && PyStr.contains "take-home-coding" (PyStr.lower query) then
    print (String newline "Getting IAM user permissions...");;
    aws_result ← invoke GetUserPermissions (Some ("user_name", "take-home-coding"));
    print ("Result: " +:+ aws_result)
  else mret tt.

(** The loop body, lines 129-158: the [try] block under its handler. *)
Definition run_query (query : string) : M unit :=
  try_except (query_body query) (fun e => print ("Error: " +:+ exc_str e)).

Definition test_aws_agent : M unit := for_each test_queries run_query.

Definition main : M unit :=
  print "Testing Enhanced AWS Agent...";;
  test_aws_agent.

End Program.

(** ** Notions the statements use *)

(** [p] occurs in [s]. *)
Definition substr (p s : string) : Prop :=
  exists pre post, s = pre +:+ p +:+ post.

(** The strings of [names] occur in [s] one after the other, in this order
    and without overlap. *)
Fixpoint in_order (names : list string) (s : string) : Prop :=
  match names with
  | [] => True
  | n :: names' => exists pre post, s = pre +:+ n +:+ post /\ in_order names' post
  end.

Fixpoint all_chars (P : ascii -> bool) (s : string) : bool :=
  match s with
  | EmptyString => true
  | String c s' => P c && all_chars P s'
  end.

(** Characters [lower] neither changes nor produces. *)
Definition caseless (c : ascii) : bool :=
  let n := PyStr.code c in
  negb (PyStr.between 65 90 n) && negb (PyStr.between 97 122 n)
  && negb (PyStr.between 192 254 n).

Definition nonspace (c : ascii) : bool := negb (PyStr.isspace c).

(** [s] without its blanks. *)
Fixpoint remove_spaces (s : string) : string :=
  match s with
  | EmptyString => EmptyString
  | String c s' =>
      if PyStr.isspace c then remove_spaces s' else String c (remove_spaces s')
  end.

(** A string [repr] shows as it is, between quotes: printable characters
    only, no backslash, and not both kinds of quote. *)
Definition verbatim_char (c : ascii) : bool :=
  PyStr.isprintable c && negb (Ascii.eqb c PyStr.backslash).

Definition verbatim (s : string) : bool :=
  all_chars verbatim_char s
  && negb (PyStr.has_char PyStr.squote s && PyStr.has_char PyStr.dquote s).

(** *** What the tools hand to the provider *)

(** The environment [aws_cli_command] passes to the child process: a copy
    of [os.environ] with the three credential variables overridden. *)
Definition cli_env (st : State) : gmap string (option string) :=
  <["AWS_DEFAULT_REGION" := region_name (globals st)]>
    (<["AWS_SECRET_ACCESS_KEY" := aws_secret_access_key (globals st)]>
       (<["AWS_ACCESS_KEY_ID" := aws_access_key_id (globals st)]>
          (Some <$> environ st))).

(** The handle [list_s3_buckets] builds when it starts in state [st]. *)
Definition s3_client (st : State) : Client :=
  mkClient "s3" (aws_access_key_id (globals st))
    (aws_secret_access_key (globals st)) (region_name (globals st))
    (next_id st).

Definition s3_client_error (w : World) (st : State) : option Exception :=
  boto3_client_error w "s3" (aws_access_key_id (globals st))
    (aws_secret_access_key (globals st)) (region_name (globals st)).

(** The module-level handles were built before [st]: their identities have
    been handed out. *)
Definition handles_allocated (st : State) : Prop :=
  client_id (ec2 (globals st)) < next_id st /\
  client_id (route53 (globals st)) < next_id st /\
  client_id (iam (globals st)) < next_id st.

Definition is_construction (ev : Event) : bool :=
  match ev with Boto3Client _ _ _ _ => true | _ => false end.

(** *** The tools as functions of the provider's answer *)

(** What the catch-all handler of a tool makes of an outcome. *)
Definition absorb (prefix : string) (o : outcome string) : string :=
  match o with
  | Return s => s
  | Raise e => prefix +:+ exc_str e
  end.

(** The three listing tools read [resp[key]], collect [item[item_key]] for
    each item and format the list after [label]. *)
Definition listing (label key item_key : string) (resp : pyval) : outcome string :=
  items ← PyVal.getitem resp key;
  items ← PyVal.iter items;
  names ← PyVal.comprehension (fun item => PyVal.getitem item item_key) items;
  mret (label +:+ PyVal.str (PList names)).

(** What [get_ec2_instance_size] makes of the response. *)
Definition sizing (instance_ip : string) (instances : pyval) : outcome string :=
  reservations ← PyVal.getitem instances "Reservations";
  if PyVal.truthy reservations then
    reservation ← PyVal.getitem0 reservations;
    insts ← PyVal.getitem reservation "Instances";
    inst ← PyVal.getitem0 insts;
    instance_type ← PyVal.getitem inst "InstanceType";
    mret ("EC2 instance " +:+ instance_ip +:+ " is of type: "
          +:+ PyVal.str instance_type)
  else mret ("No EC2 instance found with IP address: " +:+ instance_ip).

(** What [aws_cli_command] makes of the finished process. *)
Definition cli_text (result : CompletedProcess) : string :=
  if (returncode result =? 0)%Z then stdout result
  else "Error: " +:+ stderr result.

(** The state [list_s3_buckets] leaves when the handle was built. *)
Definition after_s3 (st : State) : State :=
  mkState (globals st) (environ st) (S (next_id st)) (sys_stdout st)
    (trace st ++
       [Boto3Client "s3" (aws_access_key_id (globals st))
          (aws_secret_access_key (globals st)) (region_name (globals st));
        ClientCall (s3_client st) "list_buckets" []]).

(** *** Error strings *)

Definition error_prefix (t : Tool) : string :=
  match t with
  | AwsCliCommand => "Error executing AWS command: "
  | ListRoute53HostedZones => "Error listing Route 53 hosted zones: "
  | GetEc2InstanceSize => "Error getting EC2 instance size: "
  | GetUserPermissions => "Error getting user permissions: "
  | ListS3Buckets => "Error listing S3 buckets: "
  end.

(** The provider call of tool [t], started in [st] on [arg], raises [e]. *)
Definition provider_raises (w : World) (st : State) (t : Tool) (arg : string)
  (e : Exception) : Prop :=
  match t with
  | AwsCliCommand =>
      run_outcome w ("aws" :: PyStr.split arg) (cli_env st) = Raise e
  | ListRoute53HostedZones =>
      client_call w (route53 (globals st)) "list_hosted_zones" [] = Raise e
  | GetEc2InstanceSize =>
      client_call w (ec2 (globals st)) "describe_instances" (private_ip_filter arg)
      = Raise e
  | GetUserPermissions =>
      client_call w (iam (globals st)) "list_attached_user_policies"
        [("UserName", PStr arg)] = Raise e
  | ListS3Buckets =>
      s3_client_error w st = Some e \/
      (s3_client_error w st = None /\
       client_call w (s3_client st) "list_buckets" [] = Raise e)
  end.

(** *** Success responses *)

(** Each of [items] is a dictionary holding the matching name under [key]. *)
Definition names_at (key : string) (items : list pyval) (names : list string)
  : Prop :=
  Forall2 (fun item n => PyVal.getitem item key = Return (PStr n)) items names.

(** The provider call of tool [t] succeeds with a response that carries
    exactly the item names [names], in this order. *)
Definition succeeds (w : World) (st : State) (t : Tool) (arg : string)
  (names : list string) : Prop :=
  match t with
  | AwsCliCommand =>
      exists cp,
        run_outcome w ("aws" :: PyStr.split arg) (cli_env st) = Return cp /\
        returncode cp = 0%Z /\ names = [stdout cp]
  | ListRoute53HostedZones =>
      exists resp zones,
        client_call w (route53 (globals st)) "list_hosted_zones" [] = Return resp /\
        PyVal.getitem resp "HostedZones" = Return (PList zones) /\
        names_at "Name" zones names
  | GetEc2InstanceSize =>
      exists resp r rs i insts ty,
        client_call w (ec2 (globals st)) "describe_instances" (private_ip_filter arg)
        = Return resp /\
        PyVal.getitem resp "Reservations" = Return (PList (r :: rs)) /\
        PyVal.getitem r "Instances" = Return (PList (i :: insts)) /\
        PyVal.getitem i "InstanceType" = Return (PStr ty) /\
        names = [ty]
  | GetUserPermissions =>
      exists resp policies,
        client_call w (iam (globals st)) "list_attached_user_policies"
          [("UserName", PStr arg)] = Return resp /\
        PyVal.getitem resp "AttachedPolicies" = Return (PList policies) /\
        names_at "PolicyName" policies names
  | ListS3Buckets =>
      exists resp buckets,
        s3_client_error w st = None /\
        client_call w (s3_client st) "list_buckets" [] = Return resp /\
        PyVal.getitem resp "Buckets" = Return (PList buckets) /\
        names_at "Name" buckets names
  end.

(** The success contract as the specification words it: every item name
    occurs in the result, in response order, and the result does not start
    with "Error". *)
Definition success_contract (w : World) (st : State) (t : Tool) (arg : string)
  (names : list string) : Prop :=
  succeeds w st t arg names ->
  exists s,
    (tool_function w t arg st).1 = Return s /\
    in_order names s /\
    String.prefix "Error" s = false.

(** What a tool returns on success. *)
Definition success_text (t : Tool) (arg : string) (names : list string) : string :=
  match t with
  | AwsCliCommand => List.hd EmptyString names
  | ListRoute53HostedZones =>
      "Route 53 Hosted Zones: " +:+ PyVal.repr (PList (List.map PStr names))
  | GetEc2InstanceSize =>
      "EC2 instance " +:+ arg +:+ " is of type: " +:+ List.hd EmptyString names
  | GetUserPermissions =>
      "IAM user '" +:+ arg +:+ "' has these policies: "
      +:+ PyVal.repr (PList (List.map PStr names))
  | ListS3Buckets => "S3 Buckets: " +:+ PyVal.repr (PList (List.map PStr names))
  end.

(** How an item name shows in the result: as it is where the tool formats
    one string, in its [repr] where the tool formats a list. *)
Definition shown (t : Tool) (name : string) : string :=
  match t with
  | AwsCliCommand | GetEc2InstanceSize => name
  | _ => PyStr.repr name
  end.

(** *** The rule table of the harness, as the specification lists it

    Every test is a substring test on the lowercased query; the first rule
    whose test holds is taken.  To be compared with the [if]/[elif] chain of
    [query_body]. *)

Record Rule := mkRule {
  rule_test : string -> bool;
  rule_tool : Tool;
  rule_input : option (string * string)
}.

Definition rule_table : list Rule :=
  [mkRule (fun text => PyStr.contains "s3" text && PyStr.contains "bucket" text)
     ListS3Buckets None;
   mkRule (fun text => PyStr.contains "route 53" text
                       || PyStr.contains "hosted zone" text)
     ListRoute53HostedZones None;
   mkRule (fun text => PyStr.contains "ec2" text
                       && PyStr.contains "10.0.1.112" text)
     GetEc2InstanceSize (Some ("instance_ip", "10.0.1.112"));
   mkRule (fun text => PyStr.contains "iam" text
                       && PyStr.contains "take-home-coding" text)
     GetUserPermissions (Some ("user_name", "take-home-coding"))].

Definition dispatch (query : string) : option Rule :=
  List.find (fun r => rule_test r (PyStr.lower query)) rule_table.

(** The tool [dispatch] selects, as a list of at most one. *)
Definition selected (query : string) : list Tool :=
  match dispatch query with
  | Some r => [rule_tool r]
  | None => []
  end.

(** The line the harness prints before it runs a tool. *)
Definition announcement (t : Tool) : string :=
  match t with
  | ListS3Buckets => "Executing S3 bucket listing..."
  | ListRoute53HostedZones => "Executing Route 53 hosted zones listing..."
  | GetEc2InstanceSize => "Getting EC2 instance size..."
  | GetUserPermissions => "Getting IAM user permissions..."
  | AwsCliCommand => EmptyString
  end.

(** What the harness does with the rule it found. *)
Definition run_rule (w : World) (r : option Rule) : M unit :=
  match r with
  | None => mret tt
  | Some r =>
      print (String newline (announcement (rule_tool r)));;
      aws_result ← invoke w (rule_tool r) (rule_input r);
      print ("Result: " +:+ aws_result)
  end.

(** The tools whose invocation a trace records, in order. *)
Definition invoked (tr : list Event) : list Tool :=
  omap (fun ev => match ev with ToolInvoke t _ => Some t | _ => None end) tr.
Arguments invoked : simpl never.

(** The three lines that open every iteration. *)
Definition query_header (query : string) : list string :=
  [String newline (PyStr.repeat "=" 50);
   "Query: " +:+ query;
   PyStr.repeat "=" 50].

(** *** A concrete world, for examples *)

Definition sample_call (method : string) : outcome pyval :=
  if String.eqb method "list_hosted_zones" then
    Return (PDict [("HostedZones",
                    PList [PDict [("Id", PStr "/hostedzone/Z1"); ("Name", PStr "example.com.")];
                           PDict [("Id", PStr "/hostedzone/Z2"); ("Name", PStr "example.org.")]])])
  else if String.eqb method "describe_instances" then
    Return (PDict [("Reservations",
                    PList [PDict [("Instances",
                                   PList [PDict [("InstanceType", PStr "t3.micro")]])]])])
  else if String.eqb method "list_attached_user_policies" then
    Return (PDict [("AttachedPolicies",
                    PList [PDict [("PolicyName", PStr "ReadOnlyAccess")]])])
  else if String.eqb method "list_buckets" then
    Return (PDict [("Buckets", PList [PDict [("Name", PStr "logs")];
                                      PDict [("Name", PStr "assets")]])])
  else Raise (mkException "AttributeError" "no such operation").

Definition sample_world : World :=
  mkWorld ∅
    (fun _ _ _ _ => None)
    (fun _ method _ => sample_call method)
    (fun _ _ => Return (mkCompletedProcess 0 "us-east-1" EmptyString))
    (fun query => Return ("You asked: " +:+ query)).

(** A world in which every collaborator raises [e] when called. *)
Definition failing_world (e : Exception) : World :=
  mkWorld ∅
    (fun _ _ _ _ => None)
    (fun _ _ _ => Raise e)
    (fun _ _ => Raise e)
    (fun _ => Raise e).

Definition sample_environ : gmap string string :=
  <["AWS_ACCESS_KEY" := "AKIAEXAMPLE"]>
    (<["AWS_SECRET_KEY" := "secret"]>
       (<["REGION_NAME" := "us-east-1"]> (<["HOME" := "/root"]> ∅))).

Definition sample_globals : Globals :=
  let key := Some "AKIAEXAMPLE" in
  let secret := Some "secret" in
  let region := Some "us-east-1" in
  mkGlobals key secret region
    (mkClient "ec2" key secret region 0)
    (mkClient "route53" key secret region 1)
    (mkClient "iam" key secret region 2).

(** The state right after the import in that environment. *)
Definition sample_state : State :=
  mkState sample_globals sample_environ 3 []
    [Boto3Client "ec2" (Some "AKIAEXAMPLE") (Some "secret") (Some "us-east-1");
     Boto3Client "route53" (Some "AKIAEXAMPLE") (Some "secret") (Some "us-east-1");
     Boto3Client "iam" (Some "AKIAEXAMPLE") (Some "secret") (Some "us-east-1")].

(** A world whose answers are successes in every respect: the process exits
    with code 0 and the zone listing holds one zone.  Route 53 writes a
    character outside [a-z0-9-_.] of a zone name as a backslash and three
    octal digits. *)
Definition escaped_zone : string := "a\052.example.com.".

Definition awkward_world : World :=
  mkWorld ∅
    (fun _ _ _ _ => None)
    (fun _ _ _ =>
       Return (PDict [("HostedZones", PList [PDict [("Name", PStr escaped_zone)]])]))
    (fun _ _ => Return (mkCompletedProcess 0 "Error log is empty" EmptyString))
    (fun query => Return query).

(** *** Further notions *)

(** [st'] has the module-level names and the process environment of [st],
    and no identity of [st] has been taken back. *)
Definition same_module (st st' : State) : Prop :=
  globals st' = globals st /\
  environ st' = environ st /\
  next_id st <= next_id st'.

(** The events that reach the provider: handle constructions, method
    calls on a handle and child processes. *)
Definition is_provider_event (ev : Event) : bool :=
  match ev with
  | Boto3Client _ _ _ _ | ClientCall _ _ _ | SubprocessRun _ _ => true
  | ChainInvoke _ | ToolInvoke _ _ => false
  end.

(** The three credential variables the module reads when it is imported. *)
Definition credential_names : list string :=
  ["AWS_ACCESS_KEY"; "AWS_SECRET_KEY"; "REGION_NAME"].

(** A well-formed argument: not empty and free of blanks. *)
Definition is_argument (a : string) : Prop :=
  a <> EmptyString /\ all_chars nonspace a = true.

(** The provider call of an SDK tool [t], started in [st] on [arg],
    returns [resp].  (The CLI tool calls no SDK method.) *)
Definition provider_returns (w : World) (st : State) (t : Tool) (arg : string)
  (resp : pyval) : Prop :=
  match t with
  | AwsCliCommand => False
  | ListRoute53HostedZones =>
      client_call w (route53 (globals st)) "list_hosted_zones" [] = Return resp
  | GetEc2InstanceSize =>
      client_call w (ec2 (globals st)) "describe_instances" (private_ip_filter arg)
      = Return resp
  | GetUserPermissions =>
      client_call w (iam (globals st)) "list_attached_user_policies"
        [("UserName", PStr arg)] = Return resp
  | ListS3Buckets =>
      s3_client_error w st = None /\
      client_call w (s3_client st) "list_buckets" [] = Return resp
  end.

(** The key an SDK tool reads the response under, and the key a listing
    tool reads each item under. *)
Definition response_key (t : Tool) : string :=
  match t with
  | ListRoute53HostedZones => "HostedZones"
  | GetEc2InstanceSize => "Reservations"
  | GetUserPermissions => "AttachedPolicies"
  | ListS3Buckets => "Buckets"
  | AwsCliCommand => EmptyString
  end.

Definition item_key (t : Tool) : string :=
  match t with
  | ListRoute53HostedZones | ListS3Buckets => "Name"
  | GetUserPermissions => "PolicyName"
  | GetEc2InstanceSize | AwsCliCommand => EmptyString
  end.

Definition is_listing (t : Tool) : bool :=
  match t with
  | ListRoute53HostedZones | GetUserPermissions | ListS3Buckets => true
  | GetEc2InstanceSize | AwsCliCommand => false
  end.

(** The values [if v:] takes for false. *)
Definition falsy_values : list pyval :=
  [PNone; PBool false; PInt 0; PStr EmptyString; PList []; PDict []].

(** The tools an iteration on [query] gets to run in world [w]: the
    selected one when the model call returns, none when it raises. *)
Definition reached (w : World) (query : string) : list Tool :=
  match chain_outcome w query with
  | Return _ => selected query
  | Raise _ => []
  end.

(** Reading a [repr] back, one character at a time (used to show that
    the text of a listing determines the names; the script itself never
    parses its results). *)
Definition hexval (c : ascii) : N :=
  let n := PyStr.code c in
  if PyStr.between 48 57 n then (n - 48)%N else (n - 87)%N.

Definition read_char (s : string) : option (ascii * string) :=
  match s with
  | EmptyString => None
  | String c rest =>
      if Ascii.eqb c PyStr.backslash then
        match rest with
        | EmptyString => None
        | String k rest' =>
            if Ascii.eqb k "x"%char then
              match rest' with
              | String h1 (String h2 rest'') =>
                  Some (ascii_of_N (hexval h1 * 16 + hexval h2), rest'')
              | _ => None
              end
            else if Ascii.eqb k "t"%char then Some ("009"%char, rest')
            else if Ascii.eqb k "n"%char then Some ("010"%char, rest')
            else if Ascii.eqb k "r"%char then Some ("013"%char, rest')
            else Some (k, rest')
        end
      else Some (c, rest)
  end.

(** *** The prompt, lines 101-114

    [ChatPromptTemplate.from_template] fills the one field [{input}] of the
    template with the query as it is; [prompt_head] is the template up to
    the field ([prompt_intro] and the words "User request: ") and
    [prompt_tail] what follows it. *)
Definition prompt_intro : string :=
  String.concat (String newline EmptyString)
    [EmptyString;
     "You are a helpful assistant that can interact with AWS services. You have access to the following tools:";
     EmptyString;
     "Available tools:";
     "- aws_cli_command: Execute any AWS CLI command";
     "- list_route53_hosted_zones: List all Route 53 hosted zones";
     "- get_ec2_instance_size: Get EC2 instance type by private IP address";
     "- get_user_permissions: Get IAM user policies by username";
     "- list_s3_buckets: List all S3 buckets";
     EmptyString;
     EmptyString].

Definition prompt_head : string := prompt_intro +:+ "User request: ".

Definition prompt_tail : string :=
  String.concat (String newline EmptyString)
    [EmptyString; EmptyString; "Your response:"; EmptyString].

Definition prompt_format (input : string) : string :=
  prompt_head +:+ input +:+ prompt_tail.

(** The name each decorated function is known under. *)
Definition tool_name (t : Tool) : string :=
  match t with
  | AwsCliCommand => "aws_cli_command"
  | ListRoute53HostedZones => "list_route53_hosted_zones"
  | GetEc2InstanceSize => "get_ec2_instance_size"
  | GetUserPermissions => "get_user_permissions"
  | ListS3Buckets => "list_s3_buckets"
  end.

(** ** The model at work *)

Example lower_ex : PyStr.lower "List all S3 Buckets" = "list all s3 buckets".
Proof. reflexivity. Qed.

Example split_ex :
  PyStr.split "  ec2   describe-regions " = ["ec2"; "describe-regions"].
Proof. reflexivity. Qed.

Example repr_ex : PyStr.repr "a\b" = "'a\\b'".
Proof. reflexivity. Qed.

Example repr_ex2 : PyStr.repr "it's" = String PyStr.dquote ("it's" +:+ String PyStr.dquote EmptyString).
Proof. reflexivity. Qed.

Example contains_ex : PyStr.contains "s3" "list all s3 buckets" = true.
Proof. reflexivity. Qed.

Example repr_list_ex :
  PyVal.repr (PList [PStr "a.com."; PStr "b.org."]) = "['a.com.', 'b.org.']".
Proof. reflexivity. Qed.

Example repr_misc_ex :
  PyVal.repr (PDict [("k", PInt (-12)); ("n", PNone)]) = "{'k': -12, 'n': None}".
Proof. reflexivity. Qed.

Example repr_int0_ex : PyVal.repr (PInt 0) = "0".
Proof. reflexivity. Qed.

Example repr_control_ex :
  PyStr.repr (String "007" (String "160" "x")) = "'\x07\xa0x'".
Proof. reflexivity. Qed.

Example import_ex : import_module sample_world sample_environ = Return sample_state.
Proof. vm_compute. reflexivity. Qed.

Example handles_allocated_ex : handles_allocated sample_state.
Proof. unfold handles_allocated. cbn. lia. Qed.

(** The end-to-end scenario: the first query prints the model's text, then
    the bucket listing. *)
Example first_query_ex :
  sys_stdout (run_query sample_world "List all S3 buckets in my AWS account"
                sample_state).2
  = query_header "List all S3 buckets in my AWS account"
    ++ ["Agent response:";
        "You asked: List all S3 buckets in my AWS account";
        String newline "Executing S3 bucket listing...";
        "Result: S3 Buckets: ['logs', 'assets']"].
Proof. reflexivity. Qed.

Example all_queries_ex :
  invoked (trace (main sample_world sample_state).2)
  = [ListS3Buckets; ListRoute53HostedZones; GetEc2InstanceSize; GetUserPermissions].
Proof. reflexivity. Qed.

(** ** Facts about strings *)

Module StrFacts.

Lemma app_cons c s t : String c s +:+ t = String c (s +:+ t).
Proof. reflexivity. Qed.

Lemma app_nil_l s : EmptyString +:+ s = s.
Proof. reflexivity. Qed.

Lemma app_nil_r s : s +:+ EmptyString = s.
Proof. induction s as [|c s IH]; [reflexivity|]. rewrite app_cons. by f_equal. Qed.

Lemma app_assoc a b c : (a +:+ b) +:+ c = a +:+ (b +:+ c).
Proof.
  induction a as [|x a IH]; [reflexivity|].
  rewrite !app_cons. by f_equal.
Qed.

Lemma prefix_spec p s :
  String.prefix p s = true <-> exists post, s = p +:+ post.
Proof.
  revert s. induction p as [|a p IH]; intros s.
  - split; [intros _; by exists s | intros _; by destruct s].
  - destruct s as [|b s]; cbn.
    + split; [done | intros [post H]; discriminate].
    + destruct (ascii_dec a b) as [->|Hab].
      * rewrite IH. split; intros [post H]; exists post.
        -- rewrite app_cons. by f_equal.
        -- rewrite app_cons in H. by injection H.
      * split; [done | intros [post H]]. rewrite app_cons in H.
        injection H as H1 H2. congruence.
Qed.

Lemma contains_unfold p s :
  PyStr.contains p s =
  String.prefix p s ||
    match s with EmptyString => false | String _ s' => PyStr.contains p s' end.
Proof. by destruct s. Qed.

Lemma contains_spec p s : PyStr.contains p s = true <-> substr p s.
Proof.
  split.
  - induction s as [|c s IH]; rewrite contains_unfold; intros H;
      apply orb_true_iff in H as [H|H]; try discriminate.
    + apply prefix_spec in H as [post ->]. by exists EmptyString, post.
    + apply prefix_spec in H as [post ->]. by exists EmptyString, post.
    + destruct (IH H) as (pre & post & ->).
      exists (String c pre), post. by rewrite app_cons.
  - intros (pre & post & ->). induction pre as [|c pre IH].
    + rewrite app_nil_l, contains_unfold. apply orb_true_iff. left.
      apply prefix_spec. by exists post.
    + rewrite app_cons, contains_unfold. apply orb_true_iff. by right.
Qed.

Lemma lower_app a b : PyStr.lower (a +:+ b) = PyStr.lower a +:+ PyStr.lower b.
Proof.
  induction a as [|c a IH]; [reflexivity|].
  rewrite app_cons. cbn. rewrite app_cons. by f_equal.
Qed.

Lemma substr_lower p s : substr p s -> substr (PyStr.lower p) (PyStr.lower s).
Proof.
  intros (pre & post & ->). exists (PyStr.lower pre), (PyStr.lower post).
  by rewrite !lower_app.
Qed.

Lemma substr_trans p q s : substr p q -> substr q s -> substr p s.
Proof.
  intros (a & b & ->) (c & d & ->).
  exists (c +:+ a), (b +:+ d). by rewrite !app_assoc.
Qed.

Lemma lower_char_caseless c d :
  caseless c = true -> (PyStr.lower_char d = c <-> d = c).
Proof.
  intros Hc. split.
  - intros <-. revert Hc.
    destruct d as [[] [] [] [] [] [] [] []]; vm_compute; congruence.
  - intros ->. revert Hc.
    destruct c as [[] [] [] [] [] [] [] []]; vm_compute; congruence.
Qed.

Lemma prefix_lower_caseless p s :
  all_chars caseless p = true ->
  String.prefix p (PyStr.lower s) = String.prefix p s.
Proof.
  revert s. induction p as [|a p IH]; intros s Hp; [by destruct s|].
  cbn in Hp. apply andb_true_iff in Hp as [Ha Hp].
  destruct s as [|b s]; [reflexivity|]. cbn.
  destruct (ascii_dec a (PyStr.lower_char b)) as [E|E],
    (ascii_dec a b) as [E'|E']; auto.
  - exfalso. apply E'. symmetry. by apply (lower_char_caseless a b).
  - exfalso. apply E. symmetry. by apply (lower_char_caseless a b).
Qed.

Lemma contains_lower_caseless p s :
  all_chars caseless p = true ->
  PyStr.contains p (PyStr.lower s) = PyStr.contains p s.
Proof.
  intros Hp. induction s as [|c s IH].
  - reflexivity.
  - rewrite (contains_unfold p (String c s)).
    change (PyStr.lower (String c s))
      with (String (PyStr.lower_char c) (PyStr.lower s)).
    rewrite contains_unfold, IH.
    change (String (PyStr.lower_char c) (PyStr.lower s))
      with (PyStr.lower (String c s)).
    by rewrite prefix_lower_caseless.
Qed.

End StrFacts.

(** ** Facts about [split] *)

Module SplitFacts.
Import StrFacts.

Lemma all_chars_app P a b :
  all_chars P (a +:+ b) = all_chars P a && all_chars P b.
Proof.
  induction a as [|c a IH]; [reflexivity|].
  rewrite app_cons. cbn. by rewrite IH, andb_assoc.
Qed.

Lemma app_eq_nil a b : a +:+ b = EmptyString -> a = EmptyString /\ b = EmptyString.
Proof. destruct a; [by cbn | discriminate]. Qed.

Lemma concat_empty_cons x xs :
  String.concat EmptyString (x :: xs) = x +:+ String.concat EmptyString xs.
Proof. destruct xs; cbn; [by rewrite app_nil_r | reflexivity]. Qed.

Lemma split_from_tokens s : forall cur,
  all_chars nonspace cur = true ->
  Forall (fun t => t <> EmptyString /\ all_chars nonspace t = true)
    (PyStr.split_from cur s).
Proof.
  induction s as [|c s IH]; intros cur Hcur; cbn.
  - destruct cur; constructor; [done | constructor].
  - destruct (PyStr.isspace c) eqn:Hc.
    + destruct cur; [by apply IH | constructor; [done | by apply IH]].
    + apply IH. rewrite all_chars_app, Hcur. cbn. unfold nonspace.
      by rewrite Hc.
Qed.

Lemma split_from_concat s : forall cur,
  String.concat EmptyString (PyStr.split_from cur s) = cur +:+ remove_spaces s.
Proof.
  induction s as [|c s IH]; intros cur; cbn.
  - destruct cur; [reflexivity | cbn; by rewrite app_nil_r].
  - destruct (PyStr.isspace c).
    + destruct cur; [apply IH |]. by rewrite concat_empty_cons, IH.
    + rewrite IH, app_assoc. reflexivity.
Qed.

Lemma split_from_blank ws s :
  all_chars PyStr.isspace ws = true ->
  PyStr.split_from EmptyString (ws +:+ s) = PyStr.split_from EmptyString s.
Proof.
  induction ws as [|c ws IH]; intros H; [reflexivity|].
  cbn in H. apply andb_true_iff in H as [Hc H].
  rewrite app_cons. cbn. rewrite Hc. by apply IH.
Qed.

Lemma split_from_app a : forall cur ws b,
  ws <> EmptyString ->
  all_chars PyStr.isspace ws = true ->
  PyStr.split_from cur (a +:+ ws +:+ b) = PyStr.split_from cur a ++ PyStr.split b.
Proof.
  induction a as [|c a IH]; intros cur ws b Hne Hws.
  - rewrite app_nil_l. destruct ws as [|x ws]; [done|].
    cbn in Hws. apply andb_true_iff in Hws as [Hx Hws].
    rewrite app_cons. cbn. rewrite Hx.
    destruct cur; cbn; unfold PyStr.split; by rewrite split_from_blank.
  - rewrite app_cons. cbn. destruct (PyStr.isspace c).
    + destruct cur; [by apply IH | cbn; f_equal; by apply IH].
    + by apply IH.
Qed.

Lemma split_from_token t : forall cur,
  all_chars nonspace t = true ->
  cur +:+ t <> EmptyString ->
  PyStr.split_from cur t = [cur +:+ t].
Proof.
  induction t as [|c t IH]; intros cur Ht Hne.
  - rewrite app_nil_r in *. cbn. by destruct cur.
  - cbn in Ht. apply andb_true_iff in Ht as [Hc Ht].
    unfold nonspace in Hc. apply negb_true_iff in Hc.
    cbn. rewrite Hc. rewrite IH; [| done |].
    + by rewrite app_assoc.
    + rewrite app_assoc. cbn. intros H. apply app_eq_nil in H as [_ H].
      discriminate.
Qed.

Lemma split_blank s :
  all_chars PyStr.isspace s = true -> PyStr.split s = [].
Proof.
  intros H. unfold PyStr.split.
  rewrite <- (app_nil_r s). by rewrite split_from_blank.
Qed.

End SplitFacts.

(** ** Facts about [repr] *)

Module ReprFacts.
Import StrFacts.

Lemma repr_char_verbatim q c :
  verbatim_char c = true -> Ascii.eqb c q = false ->
  PyStr.repr_char q c = String c EmptyString.
Proof.
  unfold verbatim_char, PyStr.repr_char. intros H Hq.
  apply andb_true_iff in H as [Hp Hb]. apply negb_true_iff in Hb.
  rewrite Hq, Hb, Hp. cbn.
  clear Hq Hb. revert Hp.
  destruct c as [[] [] [] [] [] [] [] []]; vm_compute; congruence.
Qed.

Lemma repr_body_verbatim q s :
  all_chars verbatim_char s = true -> PyStr.has_char q s = false ->
  PyStr.repr_body q s = s.
Proof.
  induction s as [|c s IH]; intros Hs Hq; [reflexivity|].
  cbn in Hs, Hq. apply andb_true_iff in Hs as [Hc Hs].
  apply orb_false_iff in Hq as [Hcq Hq].
  cbn. rewrite repr_char_verbatim, IH by done. reflexivity.
Qed.

Lemma repr_verbatim s :
  verbatim s = true ->
  PyStr.repr s =
  String (PyStr.repr_quote s) (s +:+ String (PyStr.repr_quote s) EmptyString).
Proof.
  unfold verbatim, PyStr.repr. intros H.
  apply andb_true_iff in H as [Hs Hq]. apply negb_true_iff in Hq.
  rewrite repr_body_verbatim; [reflexivity | done |].
  unfold PyStr.repr_quote.
  destruct (PyStr.has_char PyStr.squote s) eqn:H1,
    (PyStr.has_char PyStr.dquote s) eqn:H2; cbn; done.
Qed.

Lemma substr_repr_verbatim s : verbatim s = true -> substr s (PyStr.repr s).
Proof.
  intros H. rewrite repr_verbatim by done.
  by exists (String (PyStr.repr_quote s) EmptyString),
    (String (PyStr.repr_quote s) EmptyString).
Qed.

Lemma in_order_prepend names : forall x s,
  in_order names s -> in_order names (x +:+ s).
Proof.
  destruct names as [|n names]; intros x s H; [done|].
  destruct H as (pre & post & -> & H).
  exists (x +:+ pre), post. by rewrite app_assoc.
Qed.

Lemma in_order_concat sep post (f g : string -> string) names :
  (forall n, substr (g n) (f n)) ->
  in_order (List.map g names)
    (String.concat sep (List.map f names) +:+ post).
Proof.
  intros Hfg. induction names as [|n names IH]; [done|].
  destruct (Hfg n) as (a & b & Hn).
  assert (String.concat sep (List.map f (n :: names)) +:+ post
          = a +:+ g n +:+ (b +:+
              match names with
              | [] => post
              | _ => sep +:+ String.concat sep (List.map f names) +:+ post
              end)) as ->.
  { cbn [List.map String.concat]. rewrite Hn.
    destruct names; cbn [List.map]; by rewrite !app_assoc. }
  exists a. eexists. split; [reflexivity|].
  destruct names as [|m names]; [done|].
  apply in_order_prepend, in_order_prepend. exact IH.
Qed.

Lemma in_order_weaken names : forall names' s,
  Forall2 substr names names' -> in_order names' s -> in_order names s.
Proof.
  induction names as [|n names IH]; intros names' s HF H; [done|].
  inversion HF as [|? m ? ms Hnm HF']; subst.
  destruct H as (pre & post & -> & H).
  destruct Hnm as (a & b & ->).
  exists (pre +:+ a), (b +:+ post). split; [by rewrite !app_assoc|].
  apply in_order_prepend. by apply (IH ms).
Qed.

End ReprFacts.

(** ** The tools, step by step *)

Ltac unfold_m :=
  unfold boto3_client, call, subprocess_run, chain_invoke, try_except,
    global, os_environ_copy, emit, print, new_id, raise, lift,
    mbind, M_bind, mret, M_ret.

Ltac split_outcomes :=
  repeat match goal with
    | |- context [match ?o with Return _ => _ | Raise _ => _ end] =>
        destruct o; cbn
    end.

Section RunFacts.

Context (w : World).

Lemma aws_cli_command_run command st :
  aws_cli_command w command st =
  (Return (absorb "Error executing AWS command: "
             (cli_text <$> run_outcome w ("aws" :: PyStr.split command) (cli_env st))),
   add_events [SubprocessRun ("aws" :: PyStr.split command) (cli_env st)] st).
Proof.
  unfold aws_cli_command, cli_text. unfold_m. cbn. fold (cli_env st).
  destruct (run_outcome w _ _) as [cp|e]; cbn; [|reflexivity].
  by destruct (returncode cp =? 0)%Z.
Qed.

Lemma list_route53_hosted_zones_run st :
  list_route53_hosted_zones w st =
  (Return (absorb "Error listing Route 53 hosted zones: "
             (client_call w (route53 (globals st)) "list_hosted_zones" []
              ≫= listing "Route 53 Hosted Zones: " "HostedZones" "Name")),
   add_events [ClientCall (route53 (globals st)) "list_hosted_zones" []] st).
Proof.
  unfold list_route53_hosted_zones, listing. unfold_m. cbn.
  destruct (client_call w _ _ _) as [resp|e]; cbn; [|reflexivity].
  unfold mbind, outcome_bind. split_outcomes; reflexivity.
Qed.

Lemma get_ec2_instance_size_run instance_ip st :
  get_ec2_instance_size w instance_ip st =
  (Return (absorb "Error getting EC2 instance size: "
             (client_call w (ec2 (globals st)) "describe_instances"
                (private_ip_filter instance_ip)
              ≫= sizing instance_ip)),
   add_events
     [ClientCall (ec2 (globals st)) "describe_instances"
        (private_ip_filter instance_ip)] st).
Proof.
  unfold get_ec2_instance_size, sizing. unfold_m. cbn.
  destruct (client_call w _ _ _) as [resp|e]; cbn; [|reflexivity].
  unfold mbind, outcome_bind.
  destruct (PyVal.getitem resp "Reservations") as [rs|e]; cbn; [|reflexivity].
  destruct (PyVal.truthy rs); cbn; [|reflexivity].
  split_outcomes; reflexivity.
Qed.

Lemma get_user_permissions_run user_name st :
  get_user_permissions w user_name st =
  (Return (absorb "Error getting user permissions: "
             (client_call w (iam (globals st)) "list_attached_user_policies"
                [("UserName", PStr user_name)]
              ≫= listing ("IAM user '" +:+ user_name +:+ "' has these policies: ")
                   "AttachedPolicies" "PolicyName")),
   add_events
     [ClientCall (iam (globals st)) "list_attached_user_policies"
        [("UserName", PStr user_name)]] st).
Proof.
  unfold get_user_permissions, listing. unfold_m. cbn.
  destruct (client_call w _ _ _) as [resp|e]; cbn; [|reflexivity].
  unfold mbind, outcome_bind.
  split_outcomes; rewrite ?StrFacts.app_assoc; reflexivity.
Qed.

Lemma list_s3_buckets_run st :
  list_s3_buckets w st =
  match s3_client_error w st with
  | Some e =>
      (Return ("Error listing S3 buckets: " +:+ exc_str e),
       add_events
         [Boto3Client "s3" (aws_access_key_id (globals st))
            (aws_secret_access_key (globals st)) (region_name (globals st))] st)
  | None =>
      (Return (absorb "Error listing S3 buckets: "
                 (client_call w (s3_client st) "list_buckets" []
                  ≫= listing "S3 Buckets: " "Buckets" "Name")),
       after_s3 st)
  end.
Proof.
  unfold list_s3_buckets, listing, s3_client_error. unfold_m. cbn.
  destruct (boto3_client_error w _ _ _ _) as [e|]; cbn; [reflexivity|].
  fold (s3_client st).
  unfold after_s3, add_events; cbn. rewrite <- app_assoc. cbn.
  destruct (client_call w _ _ _) as [resp|e]; cbn; [|reflexivity].
  unfold mbind, outcome_bind. split_outcomes; reflexivity.
Qed.

(** Every tool returns, whatever the provider does. *)
Lemma tool_function_returns t arg st :
  exists s st', tool_function w t arg st = (Return s, st').
Proof.
  destruct t; cbn [tool_function].
  - rewrite aws_cli_command_run. eauto.
  - rewrite list_route53_hosted_zones_run. eauto.
  - rewrite get_ec2_instance_size_run. eauto.
  - rewrite get_user_permissions_run. eauto.
  - rewrite list_s3_buckets_run. destruct (s3_client_error w st); eauto.
Qed.

(** What a tool leaves of the state: the module-level names and the
    environment as they were, nothing printed, no invocation recorded. *)
Lemma tool_function_frame t arg st :
  let st' := (tool_function w t arg st).2 in
  globals st' = globals st /\
  environ st' = environ st /\
  sys_stdout st' = sys_stdout st /\
  next_id st <= next_id st' /\
  invoked (trace st') = invoked (trace st).
Proof.
  assert (Hinv : forall evs, invoked evs = [] ->
            invoked (trace st ++ evs) = invoked (trace st)).
  { intros evs H. unfold invoked in *. by rewrite omap_app, H, app_nil_r. }
  destruct t; cbn [tool_function].
  - rewrite aws_cli_command_run. cbn. repeat split; auto.
  - rewrite list_route53_hosted_zones_run. cbn. repeat split; auto.
  - rewrite get_ec2_instance_size_run. cbn. repeat split; auto.
  - rewrite get_user_permissions_run. cbn. repeat split; auto.
  - rewrite list_s3_buckets_run.
    destruct (s3_client_error w st); cbn; repeat split; auto.
Qed.

End RunFacts.

(** ** The harness, step by step *)

Section HarnessFacts.

Context (w : World).

(** The [if]/[elif] chain of the loop body is the rule table, read top
    down on the lowercased query. *)
Lemma query_body_dispatch query st :
  query_body w query st =
  (print (String newline (PyStr.repeat "=" 50));;
   print ("Query: " +:+ query);;
   print (PyStr.repeat "=" 50);;
   content ← chain_invoke w query;
   print "Agent response:";;
   print content;;
   run_rule w (dispatch query)) st.
Proof.
  unfold query_body, dispatch, rule_table, run_rule.
  cbn [List.find rule_test rule_tool rule_input announcement].
  rewrite (StrFacts.contains_lower_caseless "10.0.1.112") by reflexivity.
  unfold_m. cbn.
  destruct (chain_outcome w query) as [content|e]; cbn; [|reflexivity].
  destruct (PyStr.contains "s3" (PyStr.lower query)),
    (PyStr.contains "bucket" (PyStr.lower query)); cbn; try reflexivity;
  destruct (PyStr.contains "route 53" (PyStr.lower query)),
    (PyStr.contains "hosted zone" (PyStr.lower query)); cbn; try reflexivity;
  destruct (PyStr.contains "ec2" (PyStr.lower query)),
    (PyStr.contains "10.0.1.112" query); cbn; try reflexivity;
  destruct (PyStr.contains "iam" (PyStr.lower query)),
    (PyStr.contains "take-home-coding" (PyStr.lower query)); cbn;
    reflexivity.
Qed.

Lemma invoked_app tr1 tr2 : invoked (tr1 ++ tr2) = invoked tr1 ++ invoked tr2.
Proof. unfold invoked. apply omap_app. Qed.

(** Running the selected rule returns, and records exactly its tool. *)
Lemma run_rule_returns r st :
  exists st',
    run_rule w r st = (Return tt, st') /\
    invoked (trace st') =
    invoked (trace st) ++ match r with Some r => [rule_tool r] | None => [] end.
Proof.
  destruct r as [r|]; cbn [run_rule].
  - unfold invoke. unfold_m. cbn.
    set (arg := match rule_input r with Some (_, v) => v | None => EmptyString end).
    set (st1 := add_events _ _).
    destruct (tool_function_returns w (rule_tool r) arg st1) as (s & st2 & Hrun).
    pose proof (tool_function_frame w (rule_tool r) arg st1) as Hframe.
    rewrite Hrun in *. cbn in Hframe. destruct Hframe as (_ & _ & _ & _ & Hinv).
    eexists. split; [reflexivity|]. cbn. rewrite Hinv.
    subst st1. cbn. by rewrite invoked_app.
  - exists st. split; [reflexivity|]. by rewrite app_nil_r.
Qed.

(** The loop body when the model call fails. *)
Lemma run_query_model_raises query st e :
  chain_outcome w query = Raise e ->
  run_query w query st =
  (Return tt,
   add_lines (query_header query ++ ["Error: " +:+ exc_str e])
     (add_events [ChainInvoke query] st)).
Proof.
  intros H. unfold run_query, try_except. rewrite query_body_dispatch.
  unfold_m. cbn. rewrite H. cbn. unfold add_lines, add_events. cbn.
  by rewrite <- !app_assoc.
Qed.

(** The loop body when the model call returns [content]. *)
Lemma run_query_model_returns query st content :
  chain_outcome w query = Return content ->
  exists st',
    run_rule w (dispatch query)
      (add_lines (query_header query ++ ["Agent response:"; content])
         (add_events [ChainInvoke query] st)) = (Return tt, st') /\
    run_query w query st = (Return tt, st').
Proof.
  intros H.
  destruct (run_rule_returns (dispatch query)
              (add_lines (query_header query ++ ["Agent response:"; content])
                 (add_events [ChainInvoke query] st))) as (st' & Hrun & _).
  exists st'. split; [exact Hrun|].
  unfold run_query, try_except. rewrite query_body_dispatch.
  unfold_m. cbn. rewrite H. cbn.
  unfold add_lines, add_events in *. cbn in *.
  rewrite <- !app_assoc. cbn. by rewrite Hrun.
Qed.

(** The loop body never raises. *)
Lemma run_query_returns query st :
  exists st', run_query w query st = (Return tt, st').
Proof.
  unfold run_query, try_except.
  destruct (query_body w query st) as [[[]|e] st1]; eauto.
Qed.

(** A loop whose body never raises runs the body on every item in turn. *)
Lemma for_each_returns {A} (body : A -> M unit) xs : forall st,
  (forall x s, exists s', body x s = (Return tt, s')) ->
  for_each xs body st =
  (Return tt, fold_left (fun s x => (body x s).2) xs st).
Proof.
  induction xs as [|x xs IH]; intros st Hbody; [reflexivity|].
  cbn [for_each fold_left]. unfold mbind, M_bind.
  destruct (Hbody x st) as (s' & Hx). rewrite Hx. cbn. by apply IH.
Qed.

End HarnessFacts.

(** ** The tool functions *)

(** C1. Each of the five tool functions returns a string, whatever its
    provider call does: no exception leaves the function.  When the
    provider call raises [e], the string is the function's own "Error ...: "
    prefix followed by the text of [e]. *)
Theorem tools_absorb_errors (w : World) (t : Tool) (arg : string) (st : State) :
  exists s st',
    tool_function w t arg st = (Return s, st') /\
    forall e, provider_raises w st t arg e ->
      s = error_prefix t +:+ exc_str e.
Proof.
  destruct t; cbn [tool_function provider_raises error_prefix].
  - rewrite aws_cli_command_run. do 2 eexists. split; [reflexivity|].
    intros e ->. reflexivity.
  - rewrite list_route53_hosted_zones_run. do 2 eexists. split; [reflexivity|].
    intros e ->. reflexivity.
  - rewrite get_ec2_instance_size_run. do 2 eexists. split; [reflexivity|].
    intros e ->. reflexivity.
  - rewrite get_user_permissions_run. do 2 eexists. split; [reflexivity|].
    intros e ->. reflexivity.
  - rewrite list_s3_buckets_run.
    destruct (s3_client_error w st) as [e0|];
      do 2 eexists; (split; [reflexivity|]).
    + intros e [H|[H _]]; congruence.
    + intros e [H|[_ ->]]; [discriminate | reflexivity].
Qed.

Lemma tools_absorb_errors_witness :
  exists s st',
    tool_function (failing_world (mkException "ClientError" "AccessDenied"))
      ListRoute53HostedZones EmptyString sample_state = (Return s, st') /\
    s = "Error listing Route 53 hosted zones: AccessDenied".
Proof.
  destruct (tools_absorb_errors
              (failing_world (mkException "ClientError" "AccessDenied"))
              ListRoute53HostedZones EmptyString sample_state)
    as (s & st' & Hrun & Herr).
  exists s, st'. split; [exact Hrun|].
  apply (Herr (mkException "ClientError" "AccessDenied")). reflexivity.
Defined.

(** C2. On the input "ec2 describe-regions" the CLI tool runs the provider
    binary with the arguments [ec2], [describe-regions], in a copy of the
    process environment in which the three credential variables hold the
    module's credentials (the process environment itself is left as it
    was).  When the process ends with exit code 0 the tool returns its
    standard output; on any other exit code it returns "Error: " followed
    by its standard error. *)
Theorem cli_describe_regions (w : World) (st : State) :
  let args := ["aws"; "ec2"; "describe-regions"] in
  let r := aws_cli_command w "ec2 describe-regions" st in
  trace r.2 = trace st ++ [SubprocessRun args (cli_env st)] /\
  environ r.2 = environ st /\
  cli_env st !! "AWS_ACCESS_KEY_ID" = Some (aws_access_key_id (globals st)) /\
  cli_env st !! "AWS_SECRET_ACCESS_KEY"
    = Some (aws_secret_access_key (globals st)) /\
  cli_env st !! "AWS_DEFAULT_REGION" = Some (region_name (globals st)) /\
  (forall k,
      k <> "AWS_ACCESS_KEY_ID" -> k <> "AWS_SECRET_ACCESS_KEY" ->
      k <> "AWS_DEFAULT_REGION" ->
      cli_env st !! k = Some <$> environ st !! k) /\
  forall cp, run_outcome w args (cli_env st) = Return cp ->
    (returncode cp = 0%Z -> r.1 = Return (stdout cp)) /\
    (returncode cp <> 0%Z -> r.1 = Return ("Error: " +:+ stderr cp)).
Proof.
  intros args r. subst r. rewrite aws_cli_command_run.
  change (PyStr.split "ec2 describe-regions") with ["ec2"; "describe-regions"].
  cbn [fst snd]. fold args.
  split; [reflexivity|]. split; [reflexivity|].
  split; [unfold cli_env; by simplify_map_eq|].
  split; [unfold cli_env; by simplify_map_eq|].
  split; [unfold cli_env; by simplify_map_eq|].
  split.
  - intros k H1 H2 H3. unfold cli_env.
    rewrite !lookup_insert_ne by done. apply lookup_fmap.
  - intros cp Hcp. rewrite Hcp. cbn. unfold cli_text.
    split; intros Hrc.
    + by rewrite Hrc.
    + apply Z.eqb_neq in Hrc. by rewrite Hrc.
Qed.

Lemma cli_describe_regions_witness :
  (aws_cli_command sample_world "ec2 describe-regions" sample_state).1
  = Return "us-east-1".
Proof.
  pose proof (cli_describe_regions sample_world sample_state) as H.
  cbv zeta in H. destruct H as (_ & _ & _ & _ & _ & _ & H).
  destruct (H (mkCompletedProcess 0 "us-east-1" EmptyString)) as [H0 _];
    [reflexivity|].
  apply H0. reflexivity.
Defined.

(** C3. Get Compute Instance Size, for every private IP: when the
    response's [Reservations] list is empty, the result is the "No EC2
    instance found" message ending with the IP; when the list has at least
    one reservation, the result names the [InstanceType] of the first
    instance of the first reservation, whatever else the response holds. *)
Theorem instance_size_first_match (w : World) (st : State) (ip : string)
  (resp : pyval) :
  client_call w (ec2 (globals st)) "describe_instances" (private_ip_filter ip)
  = Return resp ->
  (PyVal.getitem resp "Reservations" = Return (PList []) ->
   (get_ec2_instance_size w ip st).1
   = Return ("No EC2 instance found with IP address: " +:+ ip)) /\
  (forall r rs i insts ty,
      PyVal.getitem resp "Reservations" = Return (PList (r :: rs)) ->
      PyVal.getitem r "Instances" = Return (PList (i :: insts)) ->
      PyVal.getitem i "InstanceType" = Return ty ->
      (get_ec2_instance_size w ip st).1
      = Return ("EC2 instance " +:+ ip +:+ " is of type: " +:+ PyVal.str ty)).
Proof.
  intros Hcall. rewrite get_ec2_instance_size_run, Hcall. cbn [fst].
  unfold sizing, mbind, outcome_bind. split.
  - intros ->. reflexivity.
  - intros r rs i insts ty -> . cbn. intros -> . cbn. intros ->. reflexivity.
Qed.

Lemma instance_size_first_match_witness :
  (get_ec2_instance_size sample_world "10.0.1.112" sample_state).1
  = Return "EC2 instance 10.0.1.112 is of type: t3.micro".
Proof.
  destruct (instance_size_first_match sample_world sample_state "10.0.1.112"
              (PDict [("Reservations",
                       PList [PDict [("Instances",
                                      PList [PDict [("InstanceType",
                                                     PStr "t3.micro")]])]])]))
    as [_ H]; [reflexivity|].
  apply (H (PDict [("Instances", PList [PDict [("InstanceType", PStr "t3.micro")]])])
           [] (PDict [("InstanceType", PStr "t3.micro")]) [] (PStr "t3.micro"));
    reflexivity.
Defined.

(** C9. Get Compute Instance Size: when the response has a reservation
    and the first reservation's [Instances] list is empty, the index error
    is absorbed and the result starts with "Error getting EC2 instance
    size:"; it is not the "No EC2 instance found" message. *)
Theorem instance_size_empty_instances (w : World) (st : State) (ip : string)
  (resp r : pyval) (rs : list pyval) :
  client_call w (ec2 (globals st)) "describe_instances" (private_ip_filter ip)
  = Return resp ->
  PyVal.getitem resp "Reservations" = Return (PList (r :: rs)) ->
  PyVal.getitem r "Instances" = Return (PList []) ->
  (get_ec2_instance_size w ip st).1
  = Return ("Error getting EC2 instance size: " +:+ "list index out of range")
  /\ (get_ec2_instance_size w ip st).1
     <> Return ("No EC2 instance found with IP address: " +:+ ip).
Proof.
  intros Hcall Hres Hinst.
  rewrite get_ec2_instance_size_run, Hcall. cbn [fst].
  unfold sizing, mbind, outcome_bind. rewrite Hres. cbn. rewrite Hinst. cbn.
  split; [reflexivity|]. intros H. discriminate H.
Qed.

Lemma instance_size_empty_instances_witness :
  (get_ec2_instance_size
     (mkWorld ∅ (fun _ _ _ _ => None)
        (fun _ _ _ =>
           Return (PDict [("Reservations", PList [PDict [("Instances", PList [])]])]))
        (fun _ _ => Raise (mkException "OSError" "unused"))
        (fun _ => Raise (mkException "OSError" "unused")))
     "10.0.1.112" sample_state).1
  = Return "Error getting EC2 instance size: list index out of range".
Proof.
  refine (proj1 (instance_size_empty_instances _ sample_state "10.0.1.112"
                   (PDict [("Reservations", PList [PDict [("Instances", PList [])]])])
                   (PDict [("Instances", PList [])]) [] _ _ _));
    reflexivity.
Defined.

(** C10. The CLI tool's argument list is the input split at blanks: the
    binary name followed by the maximal blank-free runs of the input, in
    order.  No argument is empty or holds a blank, a run of blanks
    separates like a single one, and an empty or all-blank input gives no
    argument at all after the binary name. *)
Theorem cli_arguments (w : World) (st : State) (command : string) :
  trace (aws_cli_command w command st).2
  = trace st ++ [SubprocessRun ("aws" :: PyStr.split command) (cli_env st)] /\
  Forall (fun a => a <> EmptyString /\ all_chars nonspace a = true)
    (PyStr.split command) /\
  String.concat EmptyString (PyStr.split command) = remove_spaces command /\
  (forall a ws b,
      command = a +:+ ws +:+ b ->
      ws <> EmptyString -> all_chars PyStr.isspace ws = true ->
      PyStr.split command = PyStr.split a ++ PyStr.split b) /\
  (command <> EmptyString -> all_chars nonspace command = true ->
   PyStr.split command = [command]) /\
  (all_chars PyStr.isspace command = true ->
   PyStr.split command = [] /\
   trace (aws_cli_command w command st).2
   = trace st ++ [SubprocessRun ["aws"] (cli_env st)]).
Proof.
  rewrite aws_cli_command_run. cbn [snd].
  split; [reflexivity|].
  split; [by apply SplitFacts.split_from_tokens|].
  split; [apply SplitFacts.split_from_concat|].
  split; [intros a ws b -> Hne Hws; by apply SplitFacts.split_from_app|].
  split.
  - intros Hne Hns. by apply SplitFacts.split_from_token.
  - intros Hws. rewrite (SplitFacts.split_blank command Hws). by split.
Qed.

Lemma cli_arguments_witness :
  PyStr.split ("s3" +:+ "   " +:+ "ls") = PyStr.split "s3" ++ PyStr.split "ls" /\
  PyStr.split "sts" = ["sts"] /\
  trace (aws_cli_command sample_world "  " sample_state).2
  = trace sample_state ++ [SubprocessRun ["aws"] (cli_env sample_state)].
Proof.
  split; [|split].
  - destruct (cli_arguments sample_world sample_state ("s3" +:+ "   " +:+ "ls"))
      as (_ & _ & _ & H & _).
    apply (H "s3" "   " "ls"); [reflexivity | discriminate | reflexivity].
  - destruct (cli_arguments sample_world sample_state "sts")
      as (_ & _ & _ & _ & H & _).
    apply H; [discriminate | reflexivity].
  - destruct (cli_arguments sample_world sample_state "  ")
      as (_ & _ & _ & _ & _ & H).
    apply H. reflexivity.
Defined.

(** C8. List Storage Buckets asks for a storage handle of its own at every
    invocation, with the module's credential triple; when it gets one, the
    handle is new (it is none of the three module-level handles, and the
    next invocation gets yet another one) and it is the handle the listing
    is called on.  The module-level names stay as they were.  No other
    tool asks for a handle: each leaves one event, which is not a handle
    construction, and hands out no identity. *)
Theorem s3_handle_per_call (w : World) (st : State) :
  let st' := (list_s3_buckets w st).2 in
  globals st' = globals st /\
  (exists rest,
      trace st' =
      trace st ++
        Boto3Client "s3" (aws_access_key_id (globals st))
          (aws_secret_access_key (globals st)) (region_name (globals st))
        :: rest) /\
  (s3_client_error w st = None ->
   st' = after_s3 st /\
   client_id (s3_client st') <> client_id (s3_client st) /\
   (handles_allocated st ->
    s3_client st <> ec2 (globals st) /\
    s3_client st <> route53 (globals st) /\
    s3_client st <> iam (globals st) /\
    handles_allocated st')) /\
  (forall t arg,
      t <> ListS3Buckets ->
      let st2 := (tool_function w t arg st).2 in
      globals st2 = globals st /\
      next_id st2 = next_id st /\
      exists ev, trace st2 = trace st ++ [ev] /\ is_construction ev = false).
Proof.
  cbv zeta. rewrite list_s3_buckets_run.
  split; [by destruct (s3_client_error w st)|].
  split; [destruct (s3_client_error w st); cbn; eauto|].
  split.
  - intros ->. cbn [snd]. split; [reflexivity|].
    split; [cbn; lia|].
    intros (H1 & H2 & H3). unfold handles_allocated. cbn.
    repeat split; try lia; intros E.
    + rewrite <- E in H1. cbn in H1. lia.
    + rewrite <- E in H2. cbn in H2. lia.
    + rewrite <- E in H3. cbn in H3. lia.
  - intros [] arg Ht; try done; cbn [tool_function].
    + rewrite aws_cli_command_run. cbn. eauto.
    + rewrite list_route53_hosted_zones_run. cbn. eauto.
    + rewrite get_ec2_instance_size_run. cbn. eauto.
    + rewrite get_user_permissions_run. cbn. eauto.
Qed.

Lemma s3_handle_per_call_witness :
  s3_client sample_state <> ec2 (globals sample_state) /\
  next_id (list_s3_buckets sample_world sample_state).2 = 4 /\
  next_id (tool_function sample_world GetUserPermissions "take-home-coding"
             sample_state).2 = 3.
Proof.
  destruct (s3_handle_per_call sample_world sample_state) as (_ & _ & Hs3 & Hother).
  destruct Hs3 as (Hst & _ & Hfresh); [reflexivity|].
  destruct Hfresh as (Hne & _); [unfold handles_allocated; cbn; lia|].
  split; [exact Hne|]. split.
  - rewrite Hst. reflexivity.
  - destruct (Hother GetUserPermissions "take-home-coding") as (_ & Hid & _);
      [discriminate|].
    exact Hid.
Defined.

(** ** The harness *)

Lemma selected_length query : length (selected query) <= 1.
Proof. unfold selected. destruct (dispatch query); cbn; lia. Qed.

Lemma run_query_invoked w query st content :
  chain_outcome w query = Return content ->
  invoked (trace (run_query w query st).2)
  = invoked (trace st) ++ selected query.
Proof.
  intros Hc.
  destruct (run_query_model_returns w query st content Hc) as (st' & Hrule & ->).
  destruct (run_rule_returns w (dispatch query)
              (add_lines (query_header query ++ ["Agent response:"; content])
                 (add_events [ChainInvoke query] st))) as (st2 & Hrule2 & Hinv).
  rewrite Hrule in Hrule2. injection Hrule2 as <-.
  cbn [snd]. rewrite Hinv. cbn [add_lines add_events trace].
  rewrite invoked_app. cbn. by rewrite app_nil_r.
Qed.

Lemma selected_s3_first query :
  PyStr.contains "s3" (PyStr.lower query) = true ->
  PyStr.contains "bucket" (PyStr.lower query) = true ->
  selected query = [ListS3Buckets].
Proof.
  intros H1 H2. unfold selected, dispatch, rule_table.
  cbn [List.find rule_test]. by rewrite H1, H2.
Qed.

(** C4. The tool the harness runs for a query is a function of the query
    text alone, and at most one: two evaluations of the loop body on the
    same query, in any two worlds and states in which the model call
    returns, record the same selection.  The rules are tried in order: a
    query with "s3", "bucket" and "hosted zone" in it (in any letter case)
    triggers List Storage Buckets and nothing else. *)
Theorem dispatch_first_match (query : string) :
  length (selected query) <= 1 /\
  (forall w1 st1 c1 w2 st2 c2,
      chain_outcome w1 query = Return c1 ->
      chain_outcome w2 query = Return c2 ->
      invoked (trace (run_query w1 query st1).2)
      = invoked (trace st1) ++ selected query /\
      invoked (trace (run_query w2 query st2).2)
      = invoked (trace st2) ++ selected query) /\
  (PyStr.contains "s3" (PyStr.lower query) = true ->
   PyStr.contains "bucket" (PyStr.lower query) = true ->
   PyStr.contains "hosted zone" (PyStr.lower query) = true ->
   selected query = [ListS3Buckets]) /\
  (substr "s3 bucket" query -> substr "hosted zone" query ->
   selected query = [ListS3Buckets]).
Proof.
  split; [apply selected_length|].
  split; [intros; split; eapply run_query_invoked; eassumption|].
  split; [intros H1 H2 _; by apply selected_s3_first|].
  intros Hs3 _. apply StrFacts.substr_lower in Hs3.
  change (PyStr.lower "s3 bucket") with "s3 bucket" in Hs3.
  apply selected_s3_first; apply StrFacts.contains_spec;
    (eapply StrFacts.substr_trans; [|exact Hs3]).
  - by exists EmptyString, " bucket".
  - by exists "s3 ", EmptyString.
Qed.

Lemma dispatch_first_match_witness :
  selected "Which S3 bucket serves my hosted zone?" = [ListS3Buckets] /\
  invoked (trace (run_query sample_world
                    "Which S3 bucket serves my hosted zone?" sample_state).2)
  = invoked (trace sample_state)
    ++ selected "Which S3 bucket serves my hosted zone?".
Proof.
  destruct (dispatch_first_match "Which S3 bucket serves my hosted zone?")
    as (_ & Hdet & Hfirst & _).
  split.
  - apply Hfirst; reflexivity.
  - apply (Hdet sample_world sample_state
             ("You asked: " +:+ "Which S3 bucket serves my hosted zone?")
             sample_world sample_state
             ("You asked: " +:+ "Which S3 bucket serves my hosted zone?"));
      reflexivity.
Defined.

Lemma find_all_false {A} (f : A -> bool) (l : list A) :
  Forall (fun x => f x = false) l -> List.find f l = None.
Proof.
  induction 1 as [|x l Hx _ IH]; [reflexivity|].
  cbn. by rewrite Hx.
Qed.

(** C7. When the lowercased query passes the test of none of the four
    rules, the loop body runs no tool: if the model call returns, the
    iteration prints the three header lines, "Agent response:" and the
    model's text, and its only event is the model call. *)
Theorem no_rule_no_tool (w : World) (st : State) (query : string) :
  Forall (fun r => rule_test r (PyStr.lower query) = false) rule_table ->
  invoked (trace (run_query w query st).2) = invoked (trace st) /\
  forall content,
    chain_outcome w query = Return content ->
    run_query w query st =
    (Return tt,
     add_lines (query_header query ++ ["Agent response:"; content])
       (add_events [ChainInvoke query] st)).
Proof.
  intros Hnone.
  assert (Hd : dispatch query = None).
  { unfold dispatch. by apply find_all_false. }
  split.
  - destruct (chain_outcome w query) as [content|e] eqn:Hc.
    + rewrite (run_query_invoked w query st content Hc).
      unfold selected. rewrite Hd. by rewrite app_nil_r.
    + rewrite (run_query_model_raises w query st e Hc). cbn.
      rewrite invoked_app. cbn. by rewrite app_nil_r.
  - intros content Hc.
    destruct (run_query_model_returns w query st content Hc) as (st' & Hrule & ->).
    rewrite Hd in Hrule. cbn in Hrule. by injection Hrule as <-.
Qed.

Lemma no_rule_no_tool_witness :
  run_query sample_world "What time is it?" sample_state =
  (Return tt,
   add_lines (query_header "What time is it?"
              ++ ["Agent response:"; "You asked: What time is it?"])
     (add_events [ChainInvoke "What time is it?"] sample_state)).
Proof.
  destruct (no_rule_no_tool sample_world sample_state "What time is it?")
    as [_ H].
  - repeat constructor.
  - apply H. reflexivity.
Defined.

Lemma run_rule_stdout w r st :
  exists lines, sys_stdout (run_rule w r st).2 = sys_stdout st ++ lines.
Proof.
  destruct r as [r|]; cbn [run_rule].
  - unfold invoke. unfold_m. cbn.
    set (arg := match rule_input r with Some (_, v) => v | None => EmptyString end).
    set (st1 := add_events _ _).
    destruct (tool_function_returns w (rule_tool r) arg st1) as (s & st2 & Hrun).
    pose proof (tool_function_frame w (rule_tool r) arg st1) as Hframe.
    rewrite Hrun in *. cbn in Hframe. destruct Hframe as (_ & _ & Hout & _).
    cbn. rewrite Hout. subst st1. cbn. rewrite <- app_assoc. eauto.
  - exists []. cbn. by rewrite app_nil_r.
Qed.

Lemma run_query_header w query st :
  exists rest,
    sys_stdout (run_query w query st).2
    = sys_stdout st ++ query_header query ++ rest.
Proof.
  destruct (chain_outcome w query) as [content|e] eqn:Hc.
  - destruct (run_query_model_returns w query st content Hc)
      as (st' & Hrule & ->).
    destruct (run_rule_stdout w (dispatch query)
                (add_lines (query_header query ++ ["Agent response:"; content])
                   (add_events [ChainInvoke query] st))) as (lines & Hout).
    rewrite Hrule in Hout. cbn [snd] in *. rewrite Hout. cbn [add_lines sys_stdout add_events].
    rewrite <- !app_assoc. eauto.
  - rewrite (run_query_model_raises w query st e Hc). cbn [snd add_lines sys_stdout add_events].
    eauto.
Qed.

(** C6. Whatever is raised inside the [try] block of an iteration, by
    the model call or by anything after it, the handler of that iteration
    catches it and prints it as "Error: ...", and the iteration ends
    normally.  The loop therefore runs the body on every query of the fixed
    sequence, in order, each iteration opening with its own header lines,
    and no exception leaves the loop. *)
Theorem harness_absorbs_errors (w : World) (st : State) :
  (forall query s,
      exists s',
        run_query w query s = (Return tt, s') /\
        (exists rest, sys_stdout s' = sys_stdout s ++ query_header query ++ rest) /\
        forall e s1,
          query_body w query s = (Raise e, s1) ->
          s' = add_lines ["Error: " +:+ exc_str e] s1) /\
  (forall query s e,
      chain_outcome w query = Raise e ->
      query_body w query s
      = (Raise e, add_lines (query_header query) (add_events [ChainInvoke query] s))) /\
  test_aws_agent w st
  = (Return tt,
     fold_left (fun s query => (run_query w query s).2) test_queries st) /\
  exists st', main w st = (Return tt, st').
Proof.
  split; [|split; [|split]].
  - intros query s.
    destruct (run_query_returns w query s) as (s' & Hrun).
    exists s'. split; [exact Hrun|]. split.
    + destruct (run_query_header w query s) as (rest & Hrest).
      rewrite Hrun in Hrest. eauto.
    + intros e s1 Hbody. unfold run_query, try_except in Hrun.
      rewrite Hbody in Hrun. unfold print in Hrun. by injection Hrun as <-.
  - intros query s e Hc. rewrite query_body_dispatch. unfold_m. cbn.
    rewrite Hc. cbn. unfold add_lines, add_events. cbn.
    by rewrite <- !app_assoc.
  - unfold test_aws_agent. apply for_each_returns. apply run_query_returns.
  - unfold main, test_aws_agent, mbind, M_bind, print.
    rewrite for_each_returns by apply run_query_returns. eauto.
Qed.

Lemma harness_absorbs_errors_witness :
  let e := mkException "APIConnectionError" "Connection error." in
  query_body (failing_world e) "List all Route 53 hosted zones" sample_state
  = (Raise e,
     add_lines (query_header "List all Route 53 hosted zones")
       (add_events [ChainInvoke "List all Route 53 hosted zones"] sample_state))
  /\
  run_query (failing_world e) "List all Route 53 hosted zones" sample_state
  = (Return tt,
     add_lines (query_header "List all Route 53 hosted zones"
                ++ ["Error: Connection error."])
       (add_events [ChainInvoke "List all Route 53 hosted zones"] sample_state)).
Proof.
  intros e.
  destruct (harness_absorbs_errors (failing_world e) sample_state)
    as (Hcatch & Hmodel & _).
  pose proof (Hmodel "List all Route 53 hosted zones" sample_state e eq_refl)
    as Hbody.
  split; [exact Hbody|].
  destruct (Hcatch "List all Route 53 hosted zones" sample_state)
    as (s' & Hrun & _ & Hprinted).
  rewrite Hrun. f_equal. rewrite (Hprinted e _ Hbody). reflexivity.
Defined.

(** ** Success responses *)

Lemma comprehension_names key items names :
  names_at key items names ->
  PyVal.comprehension (fun item => PyVal.getitem item key) items
  = Return (List.map PStr names).
Proof.
  induction 1 as [|item n items names Hn _ IH]; [reflexivity|].
  cbn. by rewrite Hn, IH.
Qed.

Lemma listing_names label key item_key resp items names :
  PyVal.getitem resp key = Return (PList items) ->
  names_at item_key items names ->
  listing label key item_key resp
  = Return (label +:+ PyVal.repr (PList (List.map PStr names))).
Proof.
  intros Hitems Hnames. unfold listing, mbind, outcome_bind.
  rewrite Hitems. cbn [PyVal.iter].
  by rewrite (comprehension_names _ _ _ Hnames).
Qed.

Lemma repr_name_list names :
  PyVal.repr (PList (List.map PStr names))
  = "[" +:+ String.concat ", " (List.map PyStr.repr names) +:+ "]".
Proof.
  cbn [PyVal.repr]. do 3 f_equal.
  induction names as [|n names IH]; [reflexivity|].
  cbn [List.map PyVal.repr]. by f_equal.
Qed.

Lemma substr_refl s : substr s s.
Proof. exists EmptyString, EmptyString. by rewrite StrFacts.app_nil_r. Qed.

(** The names of a formatted list occur in it, each in its [repr]. *)
Lemma in_order_name_list label names :
  in_order (List.map PyStr.repr names)
    (label +:+ PyVal.repr (PList (List.map PStr names))).
Proof.
  rewrite repr_name_list. do 2 apply ReprFacts.in_order_prepend.
  apply (ReprFacts.in_order_concat ", " "]" PyStr.repr PyStr.repr).
  intros n. apply substr_refl.
Qed.

Lemma in_order_verbatim_names names s :
  Forall (fun n => verbatim n = true) names ->
  in_order (List.map PyStr.repr names) s -> in_order names s.
Proof.
  intros Hv. apply ReprFacts.in_order_weaken.
  induction Hv as [|n names Hn _ IH]; constructor; [|exact IH].
  by apply ReprFacts.substr_repr_verbatim.
Qed.

Lemma in_order_single n pre : in_order [n] (pre +:+ n).
Proof.
  exists pre, EmptyString. by rewrite StrFacts.app_nil_r.
Qed.

(** C5, as the specification words it, fails on success responses: the
    CLI tool returns standard output as it is, "Error" at its start
    included, and a listing tool shows each name in its [repr], in which a
    backslash is doubled. *)
Lemma success_contract_fails :
  ~ success_contract awkward_world sample_state AwsCliCommand "s3 ls"
      ["Error log is empty"]
  /\
  ~ success_contract awkward_world sample_state ListRoute53HostedZones
      EmptyString [escaped_zone].
Proof.
  split; intros H.
  - destruct H as (s & Hs & _ & Hprefix).
    + exists (mkCompletedProcess 0 "Error log is empty" EmptyString).
      repeat split.
    + cbn [tool_function] in Hs. rewrite aws_cli_command_run in Hs.
      injection Hs as <-. vm_compute in Hprefix. discriminate.
  - destruct H as (s & Hs & Horder & _).
    + exists (PDict [("HostedZones", PList [PDict [("Name", PStr escaped_zone)]])]),
        [PDict [("Name", PStr escaped_zone)]].
      repeat split. repeat constructor.
    + cbn [tool_function] in Hs. rewrite list_route53_hosted_zones_run in Hs.
      injection Hs as <-.
      destruct Horder as (pre & post & Hs & _).
      assert (Hc : PyStr.contains escaped_zone
                     "Route 53 Hosted Zones: ['a\\052.example.com.']" = true).
      { apply StrFacts.contains_spec. exists pre, post. rewrite <- Hs.
        reflexivity. }
      vm_compute in Hc. discriminate.
Qed.

(** C5, amended.  On a success response carrying the item names [names],
    every tool returns its success text: the three listing tools their
    label followed by the names as a formatted list, the instance-size tool
    its sentence around the instance type, the CLI tool standard output and
    nothing else.  The names occur in that text in response order, each in
    its quoted [repr] form where a list is formatted, and so as they are
    when they hold only printable characters, no backslash and not both
    kinds of quote.  The text of the four SDK tools never starts with
    "Error". *)
Theorem tools_render_success (w : World) (st : State) (t : Tool) (arg : string)
  (names : list string) :
  succeeds w st t arg names ->
  (tool_function w t arg st).1 = Return (success_text t arg names) /\
  in_order (List.map (shown t) names) (success_text t arg names) /\
  (Forall (fun n => verbatim n = true) names ->
   in_order names (success_text t arg names)) /\
  (t <> AwsCliCommand ->
   String.prefix "Error" (success_text t arg names) = false) /\
  (t = AwsCliCommand -> names = [success_text t arg names]).
Proof.
  destruct t; cbn [succeeds tool_function success_text shown].
  - intros (cp & Hrun & Hrc & ->). rewrite aws_cli_command_run, Hrun.
    cbn. unfold cli_text. rewrite Hrc. cbn.
    split; [reflexivity|].
    split; [exact (in_order_single (stdout cp) EmptyString)|].
    split; [intros _; exact (in_order_single (stdout cp) EmptyString)|].
    by split.
  - intros (resp & zones & Hcall & Hz & Hn).
    rewrite list_route53_hosted_zones_run, Hcall. cbn [fst mbind outcome_bind].
    rewrite (listing_names _ _ _ _ _ _ Hz Hn). cbn [absorb].
    repeat split; try done.
    + apply in_order_name_list.
    + intros Hv. apply (in_order_verbatim_names _ _ Hv), in_order_name_list.
  - intros (resp & r & rs & i & insts & ty & Hcall & Hr & Hi & Hty & ->).
    rewrite get_ec2_instance_size_run, Hcall. cbn [fst mbind outcome_bind].
    unfold sizing, mbind, outcome_bind. rewrite Hr. cbn. rewrite Hi. cbn.
    rewrite Hty. cbn.
    assert (Hin : in_order [ty] ("EC2 instance " +:+ arg +:+ " is of type: " +:+ ty)).
    { rewrite <- !StrFacts.app_assoc. apply in_order_single. }
    repeat split; try done.
  - intros (resp & policies & Hcall & Hp & Hn).
    rewrite get_user_permissions_run, Hcall. cbn [fst mbind outcome_bind].
    rewrite (listing_names _ _ _ _ _ _ Hp Hn). cbn [absorb].
    rewrite !StrFacts.app_assoc.
    repeat split; try done.
    + rewrite <- !StrFacts.app_assoc. apply in_order_name_list.
    + intros Hv. rewrite <- !StrFacts.app_assoc.
      apply (in_order_verbatim_names _ _ Hv), in_order_name_list.
  - intros (resp & buckets & Herr & Hcall & Hb & Hn).
    rewrite list_s3_buckets_run, Herr, Hcall. cbn [fst mbind outcome_bind].
    rewrite (listing_names _ _ _ _ _ _ Hb Hn). cbn [absorb].
    repeat split; try done.
    + apply in_order_name_list.
    + intros Hv. apply (in_order_verbatim_names _ _ Hv), in_order_name_list.
Qed.

Lemma tools_render_success_witness :
  (tool_function sample_world ListS3Buckets EmptyString sample_state).1
  = Return "S3 Buckets: ['logs', 'assets']" /\
  in_order ["logs"; "assets"] "S3 Buckets: ['logs', 'assets']".
Proof.
  destruct (tools_render_success sample_world sample_state ListS3Buckets
              EmptyString ["logs"; "assets"]) as (Hrun & _ & Hnames & _).
  - exists (PDict [("Buckets", PList [PDict [("Name", PStr "logs")];
                                       PDict [("Name", PStr "assets")]])]),
      [PDict [("Name", PStr "logs")]; PDict [("Name", PStr "assets")]].
    repeat split. repeat constructor.
  - split; [exact Hrun|]. apply Hnames. repeat constructor.
Defined.

(** ** Further properties: the import *)



(** X2. A successful import leaves three handles, one per service and in
    the order compute, DNS, identity, all built from the one credential
    triple the module read; their identities differ pairwise and have all
    been handed out, and the only events so far are the three
    constructions. *)
Theorem import_builds_handles (w : World) (os_environ : gmap string string)
  (st : State) :
  import_module w os_environ = Return st ->
  let g := globals st in
  List.map client_service [ec2 g; route53 g; iam g] = ["ec2"; "route53"; "iam"] /\
  Forall (fun c =>
            client_key c = aws_access_key_id g /\
            client_secret c = aws_secret_access_key g /\
            client_region c = region_name g)
    [ec2 g; route53 g; iam g] /\
  NoDup (List.map client_id [ec2 g; route53 g; iam g]) /\
  handles_allocated st /\
  trace st =
  List.map (fun service =>
              Boto3Client service (aws_access_key_id g)
                (aws_secret_access_key g) (region_name g))
    ["ec2"; "route53"; "iam"].
Proof.
  unfold import_module.
  destruct (boto3_client_error w "ec2" _ _ _); [discriminate|].
  destruct (boto3_client_error w "route53" _ _ _); [discriminate|].
  destruct (boto3_client_error w "iam" _ _ _); [discriminate|].
  intros [= <-]. cbn. split; [reflexivity|].
  split; [repeat constructor|].
  split.
  - by apply (bool_decide_unpack _).
  - split; [unfold handles_allocated; cbn; lia | reflexivity].
Qed.

Lemma import_builds_handles_witness :
  handles_allocated sample_state /\
  NoDup (List.map client_id
           [ec2 (globals sample_state); route53 (globals sample_state);
            iam (globals sample_state)]).
Proof.
  destruct (import_builds_handles sample_world sample_environ sample_state)
    as (_ & _ & Hnodup & Halloc & _); [vm_compute; reflexivity|].
  split; [exact Halloc | exact Hnodup].
Defined.

(** ** Further properties: what the harness leaves alone *)

Lemma same_module_refl st : same_module st st.
Proof. unfold same_module. auto. Qed.

Lemma same_module_trans st1 st2 st3 :
  same_module st1 st2 -> same_module st2 st3 -> same_module st1 st3.
Proof.
  unfold same_module. intros (-> & -> & H1) (-> & -> & H2).
  repeat split. lia.
Qed.

Lemma same_module_allocated st st' :
  same_module st st' -> handles_allocated st -> handles_allocated st'.
Proof.
  unfold same_module, handles_allocated.
  intros (-> & _ & H) (H1 & H2 & H3). repeat split; lia.
Qed.

Lemma tool_function_same_module w t arg st :
  same_module st (tool_function w t arg st).2.
Proof.
  destruct (tool_function_frame w t arg st) as (H1 & H2 & _ & H3 & _).
  by repeat split.
Qed.

Lemma run_rule_same_module w r st : same_module st (run_rule w r st).2.
Proof.
  destruct r as [r|]; cbn [run_rule]; [|apply same_module_refl].
  unfold invoke. unfold_m. cbn.
  set (arg := match rule_input r with Some (_, v) => v | None => EmptyString end).
  set (st1 := add_events _ _).
  destruct (tool_function_returns w (rule_tool r) arg st1) as (s & st2 & Hrun).
  pose proof (tool_function_same_module w (rule_tool r) arg st1) as Hframe.
  rewrite Hrun in *. cbn [snd] in *.
  destruct Hframe as (Hg & He & Hn). subst st1.
  unfold same_module. cbn in *. auto.
Qed.

Lemma run_query_same_module w query st :
  same_module st (run_query w query st).2.
Proof.
  destruct (chain_outcome w query) as [content|e] eqn:Hc.
  - destruct (run_query_model_returns w query st content Hc)
      as (st' & Hrule & ->).
    pose proof (run_rule_same_module w (dispatch query)
                  (add_lines (query_header query ++ ["Agent response:"; content])
                     (add_events [ChainInvoke query] st))) as H.
    rewrite Hrule in H. cbn [snd] in *.
    destruct H as (Hg & He & Hn). unfold same_module. cbn in *. auto.
  - rewrite (run_query_model_raises w query st e Hc).
    unfold same_module. cbn. auto.
Qed.

Lemma fold_same_module w queries : forall st,
  same_module st (fold_left (fun s query => (run_query w query s).2) queries st).
Proof.
  induction queries as [|q queries IH]; intros st; [apply same_module_refl|].
  cbn [fold_left]. eapply same_module_trans; [|apply IH].
  apply run_query_same_module.
Qed.

(** X3. Nothing the harness does rebinds a module-level name or touches
    the process environment: after any iteration, and after the whole run,
    the credentials and the three handles are the ones the import left,
    [os.environ] is as it was, and the handles stay allocated. *)
Theorem harness_keeps_module (w : World) (st : State) :
  (forall query s, same_module s (run_query w query s).2) /\
  same_module st (test_aws_agent w st).2 /\
  same_module st (main w st).2 /\
  (handles_allocated st -> handles_allocated (main w st).2).
Proof.
  assert (Hloop : forall s, same_module s (test_aws_agent w s).2).
  { intros s. unfold test_aws_agent.
    rewrite for_each_returns by apply run_query_returns.
    apply fold_same_module. }
  assert (Hmain : same_module st (main w st).2).
  { unfold main, mbind, M_bind, print.
    eapply same_module_trans; [|apply Hloop].
    unfold same_module. cbn. auto. }
  split; [intros; apply run_query_same_module|].
  split; [apply Hloop|]. split; [exact Hmain|].
  by apply same_module_allocated.
Qed.

Lemma harness_keeps_module_witness :
  handles_allocated (main sample_world sample_state).2.
Proof.
  destruct (harness_keeps_module sample_world sample_state) as (_ & _ & _ & H).
  apply H. unfold handles_allocated. cbn. lia.
Defined.

(** ** Further properties: the CLI tool *)

(** X4. Import and CLI tool together: the child process gets, under the
    provider's variable names ([AWS_ACCESS_KEY_ID], [AWS_SECRET_ACCESS_KEY],
    [AWS_DEFAULT_REGION]), what the import read under the script's own
    names ([AWS_ACCESS_KEY], [AWS_SECRET_KEY], [REGION_NAME]); a value the
    environment held under a provider name is replaced, by [None] when the
    script's variable was not set.  Every other variable, the [.env]
    entries included, is passed on as it is. *)
Theorem import_then_cli (w : World) (os_environ : gmap string string)
  (st : State) (command : string) :
  import_module w os_environ = Return st ->
  let base := os_environ ∪ dotenv w in
  exists env,
    trace (aws_cli_command w command st).2
    = trace st ++ [SubprocessRun ("aws" :: PyStr.split command) env] /\
    env !! "AWS_ACCESS_KEY_ID" = Some (base !! "AWS_ACCESS_KEY") /\
    env !! "AWS_SECRET_ACCESS_KEY" = Some (base !! "AWS_SECRET_KEY") /\
    env !! "AWS_DEFAULT_REGION" = Some (base !! "REGION_NAME") /\
    forall k,
      k <> "AWS_ACCESS_KEY_ID" -> k <> "AWS_SECRET_ACCESS_KEY" ->
      k <> "AWS_DEFAULT_REGION" ->
      env !! k = Some <$> base !! k.
Proof.
  intros Himport base. exists (cli_env st).
  rewrite aws_cli_command_run. cbn [snd add_events trace].
  split; [reflexivity|].
  revert Himport. unfold import_module. fold base.
  destruct (boto3_client_error w "ec2" _ _ _); [discriminate|].
  destruct (boto3_client_error w "route53" _ _ _); [discriminate|].
  destruct (boto3_client_error w "iam" _ _ _); [discriminate|].
  intros [= <-]. unfold cli_env. cbn.
  split; [by simplify_map_eq|]. split; [by simplify_map_eq|].
  split; [by simplify_map_eq|].
  intros k H1 H2 H3. rewrite !lookup_insert_ne by done. apply lookup_fmap.
Qed.

Lemma import_then_cli_witness :
  exists env,
    trace (aws_cli_command sample_world "sts get-caller-identity" sample_state).2
    = trace sample_state
      ++ [SubprocessRun ["aws"; "sts"; "get-caller-identity"] env] /\
    env !! "AWS_ACCESS_KEY_ID" = Some (Some "AKIAEXAMPLE") /\
    env !! "HOME" = Some (Some "/root").
Proof.
  destruct (import_then_cli sample_world sample_environ sample_state
              "sts get-caller-identity") as (env & Htr & Hkey & _ & _ & Hrest);
    [vm_compute; reflexivity|].
  exists env. split; [exact Htr|]. split.
  - rewrite Hkey. reflexivity.
  - rewrite Hrest by discriminate. reflexivity.
Defined.

(** X5. The CLI tool on any command: exit code 0 gives standard output and
    drops standard error; any other exit code, a negative one included,
    gives "Error: " with standard error and drops standard output; a call
    that raises gives "Error executing AWS command: " with the exception's
    text.  The string therefore does not tell failure from success: a run
    that fails with [s] on standard error and a run that succeeds printing
    "Error: s" return the same. *)
Theorem cli_result_classes (w : World) (st : State) (command : string) :
  let finished := run_outcome w ("aws" :: PyStr.split command) (cli_env st) in
  let result := (aws_cli_command w command st).1 in
  (forall out err, finished = Return (mkCompletedProcess 0 out err) ->
                   result = Return out) /\
  (forall rc out err, finished = Return (mkCompletedProcess rc out err) ->
                      rc <> 0%Z -> result = Return ("Error: " +:+ err)) /\
  (forall e, finished = Raise e ->
             result = Return ("Error executing AWS command: " +:+ exc_str e)) /\
  (forall w' st' command' rc out s err,
      finished = Return (mkCompletedProcess rc out s) -> rc <> 0%Z ->
      run_outcome w' ("aws" :: PyStr.split command') (cli_env st')
      = Return (mkCompletedProcess 0 ("Error: " +:+ s) err) ->
      (aws_cli_command w' command' st').1 = result).
Proof.
  cbv zeta. rewrite aws_cli_command_run. cbn [fst].
  split; [by intros out err ->|].
  split.
  - intros rc out err -> Hrc. cbn. unfold cli_text. cbn.
    apply Z.eqb_neq in Hrc. by rewrite Hrc.
  - split; [by intros e ->|].
    intros w' st' command' rc out s err -> Hrc Hrun'.
    rewrite aws_cli_command_run, Hrun'. cbn. unfold cli_text. cbn.
    apply Z.eqb_neq in Hrc. by rewrite Hrc.
Qed.

Lemma cli_result_classes_witness :
  (aws_cli_command
     (mkWorld ∅ (fun _ _ _ _ => None) (fun _ _ _ => Return PNone)
        (fun _ _ => Return (mkCompletedProcess 255 EmptyString "Unable to locate credentials"))
        (fun _ => Return EmptyString))
     "s3 ls" sample_state).1
  = Return "Error: Unable to locate credentials".
Proof.
  destruct (cli_result_classes
              (mkWorld ∅ (fun _ _ _ _ => None) (fun _ _ _ => Return PNone)
                 (fun _ _ => Return (mkCompletedProcess 255 EmptyString
                                       "Unable to locate credentials"))
                 (fun _ => Return EmptyString))
              sample_state "s3 ls") as (_ & H & _).
  apply (H 255%Z EmptyString "Unable to locate credentials");
    [reflexivity | discriminate].
Defined.

(** Arguments joined by single spaces come back as they were. *)
Lemma split_join tokens :
  Forall is_argument tokens ->
  PyStr.split (String.concat " " tokens) = tokens.
Proof.
  induction 1 as [|t tokens [Hne Hns] Htok IH]; [reflexivity|].
  destruct tokens as [|t' tokens].
  - cbn [String.concat]. by apply SplitFacts.split_from_token.
  - change (String.concat " " (t :: t' :: tokens))
      with (t +:+ " " +:+ String.concat " " (t' :: tokens)).
    unfold PyStr.split at 1.
    rewrite SplitFacts.split_from_app by done.
    rewrite IH. by rewrite (SplitFacts.split_from_token t EmptyString).
Qed.

(** X6. Arguments joined by single spaces come back as they were, provided
    none is empty or holds a blank; so normalising the blanks of a command
    (split, then join with one space) changes neither what the CLI tool
    runs nor what it returns. *)
Theorem cli_blank_normalisation (w : World) (st : State) (command : string) :
  (forall tokens, Forall is_argument tokens ->
                  PyStr.split (String.concat " " tokens) = tokens) /\
  PyStr.split (String.concat " " (PyStr.split command)) = PyStr.split command /\
  aws_cli_command w (String.concat " " (PyStr.split command)) st
  = aws_cli_command w command st.
Proof.
  assert (H : PyStr.split (String.concat " " (PyStr.split command))
              = PyStr.split command).
  { apply split_join. by apply SplitFacts.split_from_tokens. }
  split; [apply split_join|]. split; [exact H|].
  by rewrite !aws_cli_command_run, H.
Qed.

Lemma cli_blank_normalisation_witness :
  PyStr.split (String.concat " " ["s3api"; "list-buckets"; "--output"; "json"])
  = ["s3api"; "list-buckets"; "--output"; "json"].
Proof.
  destruct (cli_blank_normalisation sample_world sample_state EmptyString)
    as (H & _).
  apply H. repeat constructor; discriminate.
Defined.

(** ** Further properties: malformed responses *)

Lemma sdk_tool_result w st t arg resp :
  provider_returns w st t arg resp ->
  (tool_function w t arg st).1 =
  Return
    (absorb (error_prefix t)
       (match t with
        | ListRoute53HostedZones =>
            listing "Route 53 Hosted Zones: " "HostedZones" "Name" resp
        | GetEc2InstanceSize => sizing arg resp
        | GetUserPermissions =>
            listing ("IAM user '" +:+ arg +:+ "' has these policies: ")
              "AttachedPolicies" "PolicyName" resp
        | ListS3Buckets => listing "S3 Buckets: " "Buckets" "Name" resp
        | AwsCliCommand => Return EmptyString
        end)).
Proof.
  destruct t; cbn [provider_returns tool_function error_prefix]; try done.
  - intros H. by rewrite list_route53_hosted_zones_run, H.
  - intros H. by rewrite get_ec2_instance_size_run, H.
  - intros H. by rewrite get_user_permissions_run, H.
  - intros [H1 H2]. by rewrite list_s3_buckets_run, H1, H2.
Qed.

(** X7. An SDK tool whose response lacks the key the tool reads returns
    its error string naming the key in quotes (the text of the [KeyError]);
    a response that is [None] gives the error string with the text of the
    [TypeError]. *)
Theorem missing_key_reported (w : World) (st : State) (t : Tool) (arg : string) :
  (forall d,
      provider_returns w st t arg (PDict d) ->
      PyVal.dict_get (response_key t) d = None ->
      (tool_function w t arg st).1
      = Return (error_prefix t +:+ "'" +:+ response_key t +:+ "'")) /\
  (provider_returns w st t arg PNone ->
   (tool_function w t arg st).1
   = Return (error_prefix t +:+ "'NoneType' object is not subscriptable")).
Proof.
  split.
  - intros d Hret Hkey. rewrite (sdk_tool_result _ _ _ _ _ Hret). f_equal.
    destruct t; cbn [provider_returns] in Hret; try done;
      cbn [response_key] in *;
      unfold listing, sizing, mbind, outcome_bind; cbn [PyVal.getitem];
      rewrite Hkey; reflexivity.
  - intros Hret. rewrite (sdk_tool_result _ _ _ _ _ Hret). f_equal.
    destruct t; cbn [provider_returns] in Hret; try done; reflexivity.
Qed.

Lemma missing_key_reported_witness :
  (tool_function
     (mkWorld ∅ (fun _ _ _ _ => None)
        (fun _ _ _ => Return (PDict [("ResponseMetadata", PDict [])]))
        (fun _ _ => Raise (mkException "OSError" "unused"))
        (fun _ => Raise (mkException "OSError" "unused")))
     ListS3Buckets EmptyString sample_state).1
  = Return "Error listing S3 buckets: 'Buckets'".
Proof.
  refine (proj1 (missing_key_reported _ sample_state ListS3Buckets EmptyString)
            [("ResponseMetadata", PDict [])] _ _).
  - split; reflexivity.
  - reflexivity.
Defined.

Lemma comprehension_stops key good bad rest names :
  names_at key good names ->
  PyVal.getitem bad key = Raise (KeyError (PyStr.repr key)) ->
  PyVal.comprehension (fun item => PyVal.getitem item key) (good ++ bad :: rest)
  = Raise (KeyError (PyStr.repr key)).
Proof.
  intros Hgood Hbad.
  induction Hgood as [|item n good names Hn _ IH]; cbn.
  - by rewrite Hbad.
  - by rewrite Hn, IH.
Qed.

(** X8. A listing is all or nothing: when one item of the response lacks
    its name key, the tool returns the error string naming that key, and
    none of the names that came before it. *)
Theorem listing_all_or_nothing (w : World) (st : State) (t : Tool) (arg : string)
  (resp : pyval) (good rest : list pyval) (bad : list (string * pyval))
  (names : list string) :
  is_listing t = true ->
  provider_returns w st t arg resp ->
  PyVal.getitem resp (response_key t) = Return (PList (good ++ PDict bad :: rest)) ->
  names_at (item_key t) good names ->
  PyVal.dict_get (item_key t) bad = None ->
  (tool_function w t arg st).1
  = Return (error_prefix t +:+ "'" +:+ item_key t +:+ "'").
Proof.
  intros Ht Hret Hitems Hgood Hbad.
  rewrite (sdk_tool_result _ _ _ _ _ Hret). f_equal.
  assert (Hstop :
            PyVal.comprehension (fun item => PyVal.getitem item (item_key t))
              (good ++ PDict bad :: rest)
            = Raise (KeyError (PyStr.repr (item_key t)))).
  { apply (comprehension_stops _ _ _ _ names Hgood). cbn. by rewrite Hbad. }
  destruct t; try discriminate Ht; cbn [response_key item_key] in *;
    unfold listing, mbind, outcome_bind; rewrite Hitems; cbn [PyVal.iter];
    rewrite Hstop; reflexivity.
Qed.

Lemma listing_all_or_nothing_witness :
  (tool_function
     (mkWorld ∅ (fun _ _ _ _ => None)
        (fun _ _ _ =>
           Return (PDict [("HostedZones",
                           PList [PDict [("Name", PStr "example.com.")];
                                  PDict [("Id", PStr "/hostedzone/Z2")]])]))
        (fun _ _ => Raise (mkException "OSError" "unused"))
        (fun _ => Raise (mkException "OSError" "unused")))
     ListRoute53HostedZones EmptyString sample_state).1
  = Return "Error listing Route 53 hosted zones: 'Name'".
Proof.
  refine (listing_all_or_nothing _ sample_state ListRoute53HostedZones EmptyString
            (PDict [("HostedZones",
                     PList [PDict [("Name", PStr "example.com.")];
                            PDict [("Id", PStr "/hostedzone/Z2")]])])
            [PDict [("Name", PStr "example.com.")]] []
            [("Id", PStr "/hostedzone/Z2")] ["example.com."] _ _ _ _ _);
    try reflexivity.
  repeat constructor.
Defined.

Lemma absorb_head {A} p (o : outcome A) (k : A -> outcome string) :
  (forall x, exists r, absorb (String "E" p) (k x) = String "E" r) ->
  exists r, absorb (String "E" p) (o ≫= k) = String "E" r.
Proof.
  intros H. destruct o as [x|e]; [apply H|].
  eexists. reflexivity.
Qed.

(** X9. Get Compute Instance Size answers "No EC2 instance found" exactly
    when the response's [Reservations] is one of the values Python takes
    for false ([None], [False], [0], the empty string, list or dictionary);
    for every other value the answer is the instance type or an error
    string. *)
Theorem no_instance_iff_falsy (w : World) (st : State) (ip : string)
  (resp v : pyval) :
  client_call w (ec2 (globals st)) "describe_instances" (private_ip_filter ip)
  = Return resp ->
  PyVal.getitem resp "Reservations" = Return v ->
  ((get_ec2_instance_size w ip st).1
   = Return ("No EC2 instance found with IP address: " +:+ ip)
   <-> v ∈ falsy_values) /\
  (v ∉ falsy_values ->
   exists rest,
     (get_ec2_instance_size w ip st).1 = Return (String "E" rest)).
Proof.
  intros Hcall Hres. rewrite get_ec2_instance_size_run, Hcall. cbn [fst].
  change (Return resp ≫= sizing ip) with (sizing ip resp).
  unfold sizing. rewrite Hres.
  lazymatch goal with
  | |- context [Return v ≫= ?k] => change (Return v ≫= k) with (k v)
  end.
  cbv beta.
  assert (Hfalsy : PyVal.truthy v = false <-> v ∈ falsy_values).
  { unfold falsy_values. split.
    - destruct v as [|[]|n| [|c s] |[|x l]|[|x d]]; cbn; try discriminate;
        intros H; try set_solver.
      apply negb_false_iff, Z.eqb_eq in H. subst. set_solver.
    - intros H. repeat (apply elem_of_cons in H as [->|H]; [reflexivity|]).
      by apply elem_of_nil in H. }
  destruct (PyVal.truthy v) eqn:Htruthy.
  - lazymatch goal with
    | |- context [absorb ?p ?o] =>
        assert (Hhead : exists rest, absorb p o = String "E" rest)
    end.
    { do 4 (apply absorb_head; intros ?). eexists. reflexivity. }
    destruct Hhead as [rest ->]. split.
    + split.
      * intros H. injection H as H. discriminate H.
      * intros H. apply Hfalsy in H. discriminate H.
    + intros _. by exists rest.
  - split.
    + split; [intros _; by apply Hfalsy | reflexivity].
    + intros H. exfalso. apply H. by apply Hfalsy.
Qed.

Lemma no_instance_iff_falsy_witness :
  (get_ec2_instance_size
     (mkWorld ∅ (fun _ _ _ _ => None)
        (fun _ _ _ => Return (PDict [("Reservations", PNone)]))
        (fun _ _ => Raise (mkException "OSError" "unused"))
        (fun _ => Raise (mkException "OSError" "unused")))
     "10.9.9.9" sample_state).1
  = Return "No EC2 instance found with IP address: 10.9.9.9".
Proof.
  destruct (no_instance_iff_falsy
              (mkWorld ∅ (fun _ _ _ _ => None)
                 (fun _ _ _ => Return (PDict [("Reservations", PNone)]))
                 (fun _ _ => Raise (mkException "OSError" "unused"))
                 (fun _ => Raise (mkException "OSError" "unused")))
              sample_state "10.9.9.9" (PDict [("Reservations", PNone)]) PNone)
    as [[_ H] _]; [reflexivity | reflexivity |].
  apply H. unfold falsy_values. set_solver.
Defined.

(** ** Further properties: the harness *)

(** X10. A failed model call costs the iteration its tool call as well:
    whatever rule the query matches, the iteration's only event is the
    model call, its output is the header and the "Error: ..." line, and no
    handle is built. *)
Theorem model_failure_skips_tool (w : World) (st : State) (query : string)
  (e : Exception) :
  chain_outcome w query = Raise e ->
  let st' := (run_query w query st).2 in
  trace st' = trace st ++ [ChainInvoke query] /\
  sys_stdout st' = sys_stdout st ++ query_header query ++ ["Error: " +:+ exc_str e] /\
  next_id st' = next_id st.
Proof.
  intros Hc. cbv zeta. rewrite (run_query_model_raises w query st e Hc).
  by cbn.
Qed.

Lemma model_failure_skips_tool_witness :
  selected "List all S3 buckets in my AWS account" = [ListS3Buckets] /\
  trace (run_query (failing_world (mkException "RateLimitError" "quota exceeded"))
           "List all S3 buckets in my AWS account" sample_state).2
  = trace sample_state ++ [ChainInvoke "List all S3 buckets in my AWS account"].
Proof.
  split; [reflexivity|].
  apply (model_failure_skips_tool
           (failing_world (mkException "RateLimitError" "quota exceeded"))
           sample_state "List all S3 buckets in my AWS account"
           (mkException "RateLimitError" "quota exceeded")).
  reflexivity.
Defined.

Lemma run_query_reached w query st :
  invoked (trace (run_query w query st).2)
  = invoked (trace st) ++ reached w query.
Proof.
  unfold reached. destruct (chain_outcome w query) as [content|e] eqn:Hc.
  - by apply (run_query_invoked w query st content).
  - rewrite (run_query_model_raises w query st e Hc). cbn.
    rewrite invoked_app. reflexivity.
Qed.

Lemma fold_reached w queries : forall st,
  invoked (trace (fold_left (fun s query => (run_query w query s).2) queries st))
  = invoked (trace st) ++ flat_map (reached w) queries.
Proof.
  induction queries as [|q queries IH]; intros st; cbn [fold_left flat_map].
  - by rewrite app_nil_r.
  - by rewrite IH, run_query_reached, <- app_assoc.
Qed.

(** X11. Each of the four built-in queries reaches the tool meant for it,
    none being caught by an earlier rule: over the whole run the tools
    invoked are, in order, List Storage Buckets, List DNS Hosted Zones, Get
    Compute Instance Size and Get User's Attached Policies, less those of
    the iterations whose model call failed. *)
Theorem fixed_queries_reach_tools (w : World) (st : State) :
  List.map selected test_queries
  = [[ListS3Buckets]; [ListRoute53HostedZones]; [GetEc2InstanceSize];
     [GetUserPermissions]] /\
  invoked (trace (test_aws_agent w st).2)
  = invoked (trace st) ++ flat_map (reached w) test_queries /\
  (Forall (fun query => exists content, chain_outcome w query = Return content)
     test_queries ->
   invoked (trace (test_aws_agent w st).2)
   = invoked (trace st)
     ++ [ListS3Buckets; ListRoute53HostedZones; GetEc2InstanceSize;
         GetUserPermissions]).
Proof.
  assert (Hrun : invoked (trace (test_aws_agent w st).2)
                 = invoked (trace st) ++ flat_map (reached w) test_queries).
  { unfold test_aws_agent.
    rewrite for_each_returns by apply run_query_returns.
    apply fold_reached. }
  split; [reflexivity|]. split; [exact Hrun|].
  intros Hall. rewrite Hrun. f_equal. unfold test_queries in *.
  repeat match goal with
         | H : Forall _ (_ :: _) |- _ =>
             let c := fresh "c" in let Hc := fresh "Hc" in
             apply Forall_cons_1 in H as [[c Hc] H]
         end.
  cbn [flat_map]. unfold reached. rewrite Hc, Hc0, Hc1, Hc2. reflexivity.
Qed.

Lemma fixed_queries_reach_tools_witness :
  invoked (trace (test_aws_agent sample_world sample_state).2)
  = invoked (trace sample_state)
    ++ [ListS3Buckets; ListRoute53HostedZones; GetEc2InstanceSize;
        GetUserPermissions].
Proof.
  destruct (fixed_queries_reach_tools sample_world sample_state) as (_ & _ & H).
  apply H. repeat constructor; eexists; reflexivity.
Defined.

(** X12. The choice of tool ignores letter case altogether, the test for
    the IP address (which the code makes on the query as typed) included:
    two queries with the same lowercased text have the same tool run. *)
Theorem dispatch_ignores_case (query1 query2 : string) :
  PyStr.lower query1 = PyStr.lower query2 ->
  forall w1 st1 c1 w2 st2 c2,
    chain_outcome w1 query1 = Return c1 ->
    chain_outcome w2 query2 = Return c2 ->
    exists tools,
      invoked (trace (run_query w1 query1 st1).2) = invoked (trace st1) ++ tools /\
      invoked (trace (run_query w2 query2 st2).2) = invoked (trace st2) ++ tools.
Proof.
  intros Hlower w1 st1 c1 w2 st2 c2 H1 H2. exists (selected query1).
  split; [by apply (run_query_invoked w1 query1 st1 c1)|].
  rewrite (run_query_invoked w2 query2 st2 c2 H2).
  unfold selected, dispatch. by rewrite Hlower.
Qed.

Lemma dispatch_ignores_case_witness :
  exists tools,
    invoked (trace (run_query sample_world "SIZE OF EC2 BOX 10.0.1.112?"
                      sample_state).2)
    = invoked (trace sample_state) ++ tools /\
    invoked (trace (run_query sample_world "size of ec2 box 10.0.1.112?"
                      sample_state).2)
    = invoked (trace sample_state) ++ tools.
Proof.
  apply (dispatch_ignores_case "SIZE OF EC2 BOX 10.0.1.112?"
           "size of ec2 box 10.0.1.112?" eq_refl
           sample_world sample_state ("You asked: " +:+ "SIZE OF EC2 BOX 10.0.1.112?")
           sample_world sample_state ("You asked: " +:+ "size of ec2 box 10.0.1.112?"));
    reflexivity.
Defined.

Lemma tool_error_text w t arg st e :
  provider_raises w st t arg e ->
  (tool_function w t arg st).1 = Return (error_prefix t +:+ exc_str e).
Proof.
  destruct t; cbn [tool_function provider_raises error_prefix].
  - intros H. by rewrite aws_cli_command_run, H.
  - intros H. by rewrite list_route53_hosted_zones_run, H.
  - intros H. by rewrite get_ec2_instance_size_run, H.
  - intros H. by rewrite get_user_permissions_run, H.
  - rewrite list_s3_buckets_run. intros [H|[H1 H2]].
    + by rewrite H.
    + by rewrite H1, H2.
Qed.

Lemma add_lines_add_lines l1 l2 st :
  add_lines l2 (add_lines l1 st) = add_lines (l1 ++ l2) st.
Proof. unfold add_lines. cbn. by rewrite app_assoc. Qed.

Lemma add_events_add_lines evs l st :
  add_events evs (add_lines l st) = add_lines l (add_events evs st).
Proof. reflexivity. Qed.

(** X13. When the model call returns and a rule matches, the iteration
    ends by printing "Result: " followed by exactly what the tool
    returned.  A provider failure inside the tool therefore shows as
    "Result: Error ...", the tool's own error string, and never reaches
    the iteration's handler. *)
Theorem harness_prints_tool_result (w : World) (st : State)
  (query content : string) (r : Rule) :
  chain_outcome w query = Return content ->
  dispatch query = Some r ->
  let t := rule_tool r in
  let arg := match rule_input r with Some (_, v) => v | None => EmptyString end in
  let st1 :=
    add_events [ToolInvoke t (rule_input r)]
      (add_lines (query_header query
                  ++ ["Agent response:"; content; String newline (announcement t)])
         (add_events [ChainInvoke query] st)) in
  exists s st2,
    tool_function w t arg st1 = (Return s, st2) /\
    run_query w query st = (Return tt, add_lines ["Result: " +:+ s] st2) /\
    query_body w query st = (Return tt, add_lines ["Result: " +:+ s] st2) /\
    forall e, provider_raises w st1 t arg e ->
              s = error_prefix t +:+ exc_str e.
Proof.
  intros Hc Hd t arg st1.
  destruct (tool_function_returns w t arg st1) as (s & st2 & Htool).
  exists s, st2. split; [exact Htool|].
  assert (Hbody :
            query_body w query st = (Return tt, add_lines ["Result: " +:+ s] st2)).
  { rewrite query_body_dispatch, Hd. unfold run_rule, invoke. unfold_m. cbn.
    rewrite Hc. cbn. fold t. fold arg.
    match goal with
    | |- context [tool_function w t arg ?x] =>
        replace x with st1
    end.
    - by rewrite Htool.
    - subst st1. rewrite !add_events_add_lines, !add_lines_add_lines.
      reflexivity. }
  split; [|split; [exact Hbody|]].
  - unfold run_query, try_except. by rewrite Hbody.
  - intros e He. pose proof (tool_error_text w t arg st1 e He) as H.
    rewrite Htool in H. by injection H.
Qed.

Lemma harness_prints_tool_result_witness :
  let e := mkException "ClientError" "AccessDenied" in
  let w :=
    mkWorld ∅ (fun _ _ _ _ => None) (fun _ _ _ => Raise e)
      (fun _ _ => Raise e) (fun query => Return "Listing the zones.") in
  sys_stdout (run_query w "List all Route 53 hosted zones" sample_state).2
  = query_header "List all Route 53 hosted zones"
    ++ ["Agent response:"; "Listing the zones.";
        String newline "Executing Route 53 hosted zones listing...";
        "Result: Error listing Route 53 hosted zones: AccessDenied"].
Proof.
  intros e w.
  destruct (harness_prints_tool_result w sample_state
              "List all Route 53 hosted zones" "Listing the zones."
              (mkRule (fun text => PyStr.contains "route 53" text
                                   || PyStr.contains "hosted zone" text)
                 ListRoute53HostedZones None))
    as (s & st2 & Htool & Hrun & _ & Herr); [reflexivity | reflexivity |].
  rewrite Hrun. rewrite (Herr e eq_refl).
  cbn [snd add_lines sys_stdout].
  pose proof (f_equal (fun p => sys_stdout p.2) Htool) as Hout.
  cbn in Hout. rewrite <- Hout. reflexivity.
Defined.

(** ** Further properties: the text of a listing *)

Lemma repr_quote_cases s :
  PyStr.repr_quote s = PyStr.squote \/ PyStr.repr_quote s = PyStr.dquote.
Proof.
  unfold PyStr.repr_quote.
  destruct (PyStr.has_char PyStr.squote s && negb (PyStr.has_char PyStr.dquote s));
    auto.
Qed.

Lemma repr_char_printable q c :
  q = PyStr.squote \/ q = PyStr.dquote ->
  all_chars PyStr.isprintable (PyStr.repr_char q c) = true.
Proof.
  intros [-> | ->]; destruct c as [[] [] [] [] [] [] [] []]; reflexivity.
Qed.

Lemma repr_body_printable q s :
  q = PyStr.squote \/ q = PyStr.dquote ->
  all_chars PyStr.isprintable (PyStr.repr_body q s) = true.
Proof.
  intros Hq. induction s as [|c s IH]; [reflexivity|].
  cbn [PyStr.repr_body].
  by rewrite SplitFacts.all_chars_app, repr_char_printable, IH.
Qed.

Lemma repr_printable s : all_chars PyStr.isprintable (PyStr.repr s) = true.
Proof.
  unfold PyStr.repr.
  pose proof (repr_quote_cases s) as Hq.
  cbn [all_chars]. rewrite SplitFacts.all_chars_app, repr_body_printable by done.
  destruct Hq as [-> | ->]; reflexivity.
Qed.

Lemma concat_printable sep items :
  all_chars PyStr.isprintable sep = true ->
  Forall (fun s => all_chars PyStr.isprintable s = true) items ->
  all_chars PyStr.isprintable (String.concat sep items) = true.
Proof.
  intros Hsep. induction 1 as [|s items Hs Hitems IH]; [reflexivity|].
  destruct items as [|s' items]; [exact Hs|].
  change (String.concat sep (s :: s' :: items))
    with (s +:+ sep +:+ String.concat sep (s' :: items)).
  by rewrite !SplitFacts.all_chars_app, Hs, Hsep, IH.
Qed.

Lemma name_list_printable names :
  all_chars PyStr.isprintable (PyVal.repr (PList (List.map PStr names))) = true.
Proof.
  rewrite repr_name_list.
  rewrite !SplitFacts.all_chars_app, concat_printable; [reflexivity..|].
  induction names; constructor; [apply repr_printable | done].
Qed.

Lemma listing_result w st t arg resp items names :
  is_listing t = true ->
  provider_returns w st t arg resp ->
  PyVal.getitem resp (response_key t) = Return (PList items) ->
  names_at (item_key t) items names ->
  (tool_function w t arg st).1
  = Return
      (match t with
       | GetUserPermissions => "IAM user '" +:+ arg +:+ "' has these policies: "
       | ListS3Buckets => "S3 Buckets: "
       | _ => "Route 53 Hosted Zones: "
       end +:+ PyVal.repr (PList (List.map PStr names))).
Proof.
  intros Ht Hret Hitems Hnames.
  rewrite (sdk_tool_result _ _ _ _ _ Hret).
  destruct t; try discriminate Ht; cbn [response_key item_key] in *;
    by rewrite (listing_names _ _ _ _ _ _ Hitems Hnames).
Qed.

(** X14. The result of a successful listing is made of printable
    characters only, whatever the names hold: line breaks, escape
    characters and other control characters in a name reach the result in
    escaped form.  (For the policy listing this asks that the user name,
    which is copied as it is, be printable.) *)
Theorem listing_output_printable (w : World) (st : State) (t : Tool)
  (arg : string) (resp : pyval) (items : list pyval) (names : list string) :
  is_listing t = true ->
  provider_returns w st t arg resp ->
  PyVal.getitem resp (response_key t) = Return (PList items) ->
  names_at (item_key t) items names ->
  (t = GetUserPermissions -> all_chars PyStr.isprintable arg = true) ->
  exists s,
    (tool_function w t arg st).1 = Return s /\
    all_chars PyStr.isprintable s = true.
Proof.
  intros Ht Hret Hitems Hnames Harg.
  rewrite (listing_result w st t arg resp items names) by done.
  eexists. split; [reflexivity|].
  rewrite SplitFacts.all_chars_app, name_list_printable, andb_true_r.
  destruct t; try discriminate Ht; try reflexivity.
  by rewrite !SplitFacts.all_chars_app, Harg.
Qed.

Lemma listing_output_printable_witness :
  let resp :=
    PDict [("Buckets",
            PList [PDict [("Name", PStr (String "027" "[2Jlogs"))];
                   PDict [("Name", PStr (String newline "Error: x"))]])] in
  let w :=
    mkWorld ∅ (fun _ _ _ _ => None) (fun _ _ _ => Return resp)
      (fun _ _ => Raise (mkException "OSError" "unused"))
      (fun _ => Raise (mkException "OSError" "unused")) in
  exists s,
    (tool_function w ListS3Buckets EmptyString sample_state).1 = Return s /\
    all_chars PyStr.isprintable s = true.
Proof.
  intros resp w.
  apply (listing_output_printable w sample_state ListS3Buckets EmptyString resp
           [PDict [("Name", PStr (String "027" "[2Jlogs"))];
            PDict [("Name", PStr (String newline "Error: x"))]]
           [String "027" "[2Jlogs"; String newline "Error: x"]).
  - reflexivity.
  - split; reflexivity.
  - reflexivity.
  - repeat constructor.
  - discriminate.
Defined.

(** Reading back what [repr] wrote. *)

Lemma read_repr_char q c rest :
  q = PyStr.squote \/ q = PyStr.dquote ->
  read_char (PyStr.repr_char q c +:+ rest) = Some (c, rest).
Proof.
  intros [-> | ->]; destruct c as [[] [] [] [] [] [] [] []]; reflexivity.
Qed.

Lemma repr_char_not_quote q c rest rest' :
  q = PyStr.squote \/ q = PyStr.dquote ->
  PyStr.repr_char q c +:+ rest <> String q rest'.
Proof.
  intros [-> | ->]; destruct c as [[] [] [] [] [] [] [] []];
    vm_compute; discriminate.
Qed.

Lemma repr_body_unique q : forall a b x y,
  q = PyStr.squote \/ q = PyStr.dquote ->
  PyStr.repr_body q a +:+ String q x = PyStr.repr_body q b +:+ String q y ->
  a = b /\ x = y.
Proof.
  induction a as [|c a IH]; intros [|d b] x y Hq H; cbn [PyStr.repr_body] in H.
  - by injection H.
  - rewrite StrFacts.app_nil_l, StrFacts.app_assoc in H. symmetry in H.
    by apply repr_char_not_quote in H.
  - rewrite StrFacts.app_nil_l, StrFacts.app_assoc in H.
    by apply repr_char_not_quote in H.
  - rewrite !StrFacts.app_assoc in H.
    apply (f_equal read_char) in H. rewrite !read_repr_char in H by done.
    injection H as -> H. destruct (IH b x y Hq H) as [-> ->]. done.
Qed.

Lemma repr_unique a b x y :
  PyStr.repr a +:+ x = PyStr.repr b +:+ y -> a = b /\ x = y.
Proof.
  unfold PyStr.repr. rewrite !StrFacts.app_cons, !StrFacts.app_assoc.
  intros H. injection H as Hq H. rewrite <- Hq in H.
  rewrite !StrFacts.app_cons, !StrFacts.app_nil_l in H.
  eapply repr_body_unique; [apply repr_quote_cases | exact H].
Qed.

Lemma repr_starts_with_quote s rest :
  exists q rest', (q = PyStr.squote \/ q = PyStr.dquote) /\
                  PyStr.repr s +:+ rest = String q rest'.
Proof.
  unfold PyStr.repr. rewrite StrFacts.app_cons.
  eexists _, _. split; [apply repr_quote_cases | reflexivity].
Qed.

Lemma name_list_tail_unique names1 : forall names2,
  String.concat ", " (List.map PyStr.repr names1) +:+ "]"
  = String.concat ", " (List.map PyStr.repr names2) +:+ "]" ->
  names1 = names2.
Proof.
  assert (Hcons : forall n names,
            String.concat ", " (List.map PyStr.repr (n :: names)) +:+ "]"
            = PyStr.repr n +:+
              match names with
              | [] => "]"
              | _ => ", " +:+ String.concat ", " (List.map PyStr.repr names) +:+ "]"
              end).
  { intros n [|m names]; [reflexivity|].
    cbn [List.map String.concat]. by rewrite !StrFacts.app_assoc. }
  assert (Hnil : forall n names,
            "]" <> String.concat ", " (List.map PyStr.repr (n :: names)) +:+ "]").
  { intros n names H. rewrite Hcons in H.
    destruct (repr_starts_with_quote n
                match names with
                | [] => "]"
                | _ => ", " +:+ String.concat ", " (List.map PyStr.repr names) +:+ "]"
                end) as (q & rest' & Hq & Hrepr).
    rewrite Hrepr in H. destruct Hq as [-> | ->]; discriminate H. }
  induction names1 as [|n1 names1 IH]; intros [|n2 names2] H.
  - reflexivity.
  - by apply Hnil in H.
  - symmetry in H. by apply Hnil in H.
  - rewrite !Hcons in H. apply repr_unique in H as [-> H].
    f_equal. destruct names1 as [|m1 names1], names2 as [|m2 names2].
    + reflexivity.
    + discriminate H.
    + discriminate H.
    + apply IH. by apply (String.app_inj ", ") in H.
Qed.

Lemma name_list_unique names1 names2 :
  PyVal.repr (PList (List.map PStr names1)) = PyVal.repr (PList (List.map PStr names2)) ->
  names1 = names2.
Proof.
  rewrite !repr_name_list. intros H.
  apply (String.app_inj "[") in H. by apply name_list_tail_unique.
Qed.

(** X15. The text of a successful listing determines the names and their
    order: two responses to the same tool (for the policy listing, about
    the same user) whose results are equal carry the same list of names.
    Quoting and escaping leave no two lists with one rendering. *)
Theorem listing_determines_names (t : Tool) (arg : string)
  (w1 w2 : World) (st1 st2 : State) (resp1 resp2 : pyval)
  (items1 items2 : list pyval) (names1 names2 : list string) :
  is_listing t = true ->
  provider_returns w1 st1 t arg resp1 ->
  PyVal.getitem resp1 (response_key t) = Return (PList items1) ->
  names_at (item_key t) items1 names1 ->
  provider_returns w2 st2 t arg resp2 ->
  PyVal.getitem resp2 (response_key t) = Return (PList items2) ->
  names_at (item_key t) items2 names2 ->
  (tool_function w1 t arg st1).1 = (tool_function w2 t arg st2).1 ->
  names1 = names2.
Proof.
  intros Ht Hret1 Hitems1 Hnames1 Hret2 Hitems2 Hnames2.
  rewrite (listing_result w1 st1 t arg resp1 items1 names1) by done.
  rewrite (listing_result w2 st2 t arg resp2 items2 names2) by done.
  intros [= H]. apply String.app_inj in H. by apply name_list_unique.
Qed.

Lemma listing_determines_names_witness :
  ["logs"; "assets"] = ["logs"; "assets"].
Proof.
  apply (listing_determines_names ListS3Buckets EmptyString sample_world
           (mkWorld ∅ (fun _ _ _ _ => None)
              (fun _ _ _ =>
                 Return (PDict [("Owner", PDict [("ID", PStr "abc")]);
                                ("Buckets",
                                 PList [PDict [("Name", PStr "logs")];
                                        PDict [("Name", PStr "assets")]])]))
              (fun _ _ => Raise (mkException "OSError" "unused"))
              (fun _ => Raise (mkException "OSError" "unused")))
           sample_state sample_state
           (PDict [("Buckets", PList [PDict [("Name", PStr "logs")];
                                      PDict [("Name", PStr "assets")]])])
           (PDict [("Owner", PDict [("ID", PStr "abc")]);
                   ("Buckets",
                    PList [PDict [("Name", PStr "logs")];
                           PDict [("Name", PStr "assets")]])])
           [PDict [("Name", PStr "logs")]; PDict [("Name", PStr "assets")]]
           [PDict [("Name", PStr "logs")]; PDict [("Name", PStr "assets")]]).
  - reflexivity.
  - split; reflexivity.
  - reflexivity.
  - repeat constructor.
  - split; reflexivity.
  - reflexivity.
  - repeat constructor.
  - reflexivity.
Defined.

(** ** Further properties: the storage tool's own handle *)

(** X16. When building the storage handle fails, List Storage Buckets
    makes no listing call at all (it does not fall back on another
    handle), hands out no identity and returns its error string with the
    text of the failure; the construction attempt is its only event. *)
Theorem s3_construction_failure (w : World) (st : State) (e : Exception) :
  s3_client_error w st = Some e ->
  list_s3_buckets w st
  = (Return ("Error listing S3 buckets: " +:+ exc_str e),
     add_events
       [Boto3Client "s3" (aws_access_key_id (globals st))
          (aws_secret_access_key (globals st)) (region_name (globals st))] st)
  /\ next_id (list_s3_buckets w st).2 = next_id st
  /\ Forall (fun ev => match ev with ClientCall _ _ _ => False | _ => True end)
       (drop (length (trace st)) (trace (list_s3_buckets w st).2)).
Proof.
  intros H. rewrite list_s3_buckets_run, H. cbn.
  split; [reflexivity|]. split; [reflexivity|].
  rewrite drop_app_length. by repeat constructor.
Qed.

Lemma s3_construction_failure_witness :
  (list_s3_buckets
     (mkWorld ∅
        (fun _ _ _ _ => Some (mkException "InvalidRegionError" "bad region"))
        (fun _ _ _ => Return PNone)
        (fun _ _ => Raise (mkException "OSError" "unused"))
        (fun _ => Raise (mkException "OSError" "unused")))
     sample_state).1
  = Return "Error listing S3 buckets: bad region".
Proof.
  refine (f_equal fst
            (proj1 (s3_construction_failure _ sample_state
                      (mkException "InvalidRegionError" "bad region") _))).
  reflexivity.
Defined.

(** ** Further properties: the prompt *)

Lemma list_ascii_app a b :
  list_ascii_of_string (a +:+ b)
  = list_ascii_of_string a ++ list_ascii_of_string b.
Proof.
  induction a as [|c a IH]; [reflexivity|].
  rewrite StrFacts.app_cons. cbn. by rewrite IH.
Qed.

Lemma app_inv_tail_string a b t : a +:+ t = b +:+ t -> a = b.
Proof.
  intros H. apply (f_equal list_ascii_of_string) in H.
  rewrite !list_ascii_app in H. apply app_inv_tail in H.
  apply (f_equal string_of_list_ascii) in H.
  by rewrite !string_of_list_ascii_of_string in H.
Qed.



(** ** Further properties: credentials are fixed at import *)

(** X18. What a tool returns depends on the state only through the
    module-level names, the identity counter and, for the CLI tool, the
    process environment: nothing printed or done before changes it.  The
    SDK tools do not read the process environment at all, so a change to
    [os.environ] after the import changes none of their results; the CLI
    tool passes such a change on to the child process but still overrides
    the three credential variables with the values read at import. *)
Theorem tools_use_import_credentials (w : World) (t : Tool) (arg : string)
  (st st' : State) :
  globals st' = globals st ->
  next_id st' = next_id st ->
  (environ st' = environ st ->
   (tool_function w t arg st').1 = (tool_function w t arg st).1) /\
  (t <> AwsCliCommand ->
   (tool_function w t arg st').1 = (tool_function w t arg st).1) /\
  Forall (fun name => cli_env st' !! name = cli_env st !! name)
    ["AWS_ACCESS_KEY_ID"; "AWS_SECRET_ACCESS_KEY"; "AWS_DEFAULT_REGION"].
Proof.
  intros Hg Hn.
  assert (Hsdk : t <> AwsCliCommand ->
                 (tool_function w t arg st').1 = (tool_function w t arg st).1).
  { intros Ht. destruct t; try done; cbn [tool_function].
    - by rewrite !list_route53_hosted_zones_run, Hg.
    - by rewrite !get_ec2_instance_size_run, Hg.
    - by rewrite !get_user_permissions_run, Hg.
    - rewrite !list_s3_buckets_run.
      unfold s3_client_error, s3_client. rewrite Hg, Hn.
      by destruct (boto3_client_error w _ _ _ _). }
  split; [|split; [exact Hsdk|]].
  - intros He. destruct t; try (apply Hsdk; discriminate).
    cbn [tool_function]. rewrite !aws_cli_command_run.
    unfold cli_env. by rewrite Hg, He.
  - unfold cli_env. rewrite Hg.
    repeat constructor; by simplify_map_eq.
Qed.

Lemma tools_use_import_credentials_witness :
  let later :=
    mkState (globals sample_state)
      (<["AWS_ACCESS_KEY" := "CHANGED"]> (environ sample_state))
      (next_id sample_state) ["printed earlier"] (trace sample_state) in
  (tool_function sample_world ListS3Buckets EmptyString later).1
  = (tool_function sample_world ListS3Buckets EmptyString sample_state).1
  /\ cli_env later !! "AWS_ACCESS_KEY_ID" = Some (Some "AKIAEXAMPLE").
Proof.
  intros later.
  destruct (tools_use_import_credentials sample_world ListS3Buckets EmptyString
              sample_state later eq_refl eq_refl) as (_ & Hsdk & Hcli).
  split; [apply Hsdk; discriminate|].
  apply Forall_cons_1 in Hcli as [-> _]. reflexivity.
Defined.
